(** * Content-based recommender and its offline evaluation

    A shallow embedding of [content_based_filtering.py] and
    [evaluation_content.py].

    Conventions of the embedding.

    - The first part computes on the rows alone: a [DataFrame] is the list
      of its rows and a position in the list is the row number.  This is what
      a call computes on a frame with pandas' default [RangeIndex] when no
      library raises.
    - The module [Indexed], further down, runs the same steps on a frame that
      carries its index labels, as the frame filtered in [app.py] does, and
      lets the libraries raise: [re] on a pattern it rejects, the vectoriser
      on a corpus without any term, numpy on a row number out of range.
      The lemma [on_default_index] relates the two.
    - A Python [str] is a [string] whose characters are the code points below
      256; [lower] and [strip] are Python's on that range.
    - Python floats are rationals ([Q]); a true division by zero raises.
    - [top_n] is a count, a natural number.
    - pandas and scikit-learn are not code of this repository.  Their calls
      are parameters: [Series.str.contains] through the interface
      [StrContains], and [TfidfVectorizer] followed by [cosine_similarity]
      through the function [cosine_tfidf]. *)

From Stdlib Require Import List String Ascii Bool Arith ZArith QArith Lia.
From Stdlib Require Import Sorted Permutation.
Import ListNotations.

Local Open Scope string_scope.
Local Open Scope nat_scope.

(** ** Python string operations *)

Module PyStr.

(** [str.lower] on one character: A-Z and the upper-case letters of the
    Latin-1 block (all of 0xC0-0xDE but the sign 0xD7) move up by 32. *)
Definition lower_char (c : ascii) : ascii :=
  let n := nat_of_ascii c in
  if (((65 <=? n) && (n <=? 90))
      || ((192 <=? n) && (n <=? 222) && negb (n =? 215)))%nat
  then ascii_of_nat (n + 32) else c.

Fixpoint lower (s : string) : string :=
  match s with
  | EmptyString => EmptyString
  | String c s' => String (lower_char c) (lower s')
  end.

(** [str.isspace] on one character. *)
Definition isspace (c : ascii) : bool :=
  let n := nat_of_ascii c in
  (((9 <=? n) && (n <=? 13)) || ((28 <=? n) && (n <=? 32))
   || (n =? 133) || (n =? 160))%nat.

Fixpoint lstrip (s : string) : string :=
  match s with
  | EmptyString => EmptyString
  | String c s' => if isspace c then lstrip s' else s
  end.

Fixpoint rstrip (s : string) : string :=
  match s with
  | EmptyString => EmptyString
  | String c s' =>
      match rstrip s' with
      | EmptyString => if isspace c then EmptyString else String c EmptyString
      | r => String c r
      end
  end.

Definition strip (s : string) : string := rstrip (lstrip s).

(** [s.startswith(pat)] *)
Fixpoint startswith (pat s : string) : bool :=
  match pat, s with
  | EmptyString, _ => true
  | String _ _, EmptyString => false
  | String p pat', String c s' => Ascii.eqb p c && startswith pat' s'
  end.

(** [pat in s]: [pat] occurs in [s] as a contiguous substring. *)
Fixpoint str_in (pat s : string) : bool :=
  startswith pat s ||
  match s with
  | EmptyString => false
  | String _ s' => str_in pat s'
  end.

Fixpoint all_chars (p : ascii -> bool) (s : string) : bool :=
  match s with
  | EmptyString => true
  | String c s' => p c && all_chars p s'
  end.

End PyStr.

(** ** Regular expressions, as far as the recommender meets them

    [Series.str.contains(pat, na=False)] is called with pandas' default
    [regex=True]: the pattern is handed to [re] and a cell is kept when
    [re.search] finds the pattern somewhere in it. *)

(** The characters with a meaning of their own in a pattern of [re]. *)
Definition re_special (c : ascii) : bool :=
  existsb (Ascii.eqb c)
    (list_ascii_of_string ".^$*+?{}[]\|()").

(** A pattern without any special character stands for itself. *)
Definition re_plain (pat : string) : bool :=
  PyStr.all_chars (fun c => negb (re_special c)) pat.

Class StrContains := {
  (** [str_contains pat s]: the cell [s] is kept by [.str.contains(pat)]. *)
  str_contains : string -> string -> bool;
  (** On a pattern without special characters the search is the plain
      substring test. *)
  str_contains_plain :
    forall pat s, re_plain pat = true -> str_contains pat s = PyStr.str_in pat s
}.

(** An engine that meets the interface: [literal_engine] reads every pattern
    literally (what [regex=False] would do). *)
Definition literal_engine : StrContains :=
  {| str_contains := PyStr.str_in;
     str_contains_plain := fun _ _ _ => eq_refl |}.

(** ** Data model *)

(** One row of the catalog.  A missing cell (NaN) is [None]. *)
Record Item := {
  Name : string;
  Brand : option string;
  Rating : option Q;
  ReviewCount : option Z;
  ImageURL : option string;
  Tags : option string;
  Category : option string
}.

Definition DataFrame := list Item.

(** One row of the frame the recommender returns: the columns
    [["Name", "Brand", "Rating", "ReviewCount", "ImageURL"]]. *)
Record Product := {
  product_Name : string;
  product_Brand : option string;
  product_Rating : option Q;
  product_ReviewCount : option Z;
  product_ImageURL : option string
}.

Definition product_of (it : Item) : Product :=
  {| product_Name := Name it;
     product_Brand := Brand it;
     product_Rating := Rating it;
     product_ReviewCount := ReviewCount it;
     product_ImageURL := ImageURL it |}.

(** The [item_name] argument as Python passes it: a string, or an object of
    another type, of which only the truth value is looked at. *)
Inductive PyArg :=
| PyString (s : string)
| PyOther (truthy : bool).

(** [bool(item_name)] and [isinstance(item_name, str)] *)
Definition truth (a : PyArg) : bool :=
  match a with
  | PyString s => negb (s =? "")%string
  | PyOther b => b
  end.

Definition isinstance_str (a : PyArg) : bool :=
  match a with
  | PyString _ => true
  | PyOther _ => false
  end.

(** [data["Tags"].fillna("")] on one cell. *)
Definition fillna (t : option string) : string :=
  match t with Some s => s | None => "" end.

(** ** Ranking *)

Definition Qltb (a b : Q) : bool := negb (Qle_bool b a).

(** [sorted(scores, key=lambda x: x[1], reverse=True)]: a stable sort, so
    entries with equal scores keep their order.  [insert_desc x l] puts [x],
    which stood before all of [l], in front of the first entry that is not
    strictly greater. *)
Fixpoint insert_desc (x : nat * Q) (l : list (nat * Q)) : list (nat * Q) :=
  match l with
  | [] => [x]
  | y :: l' => if Qltb (snd x) (snd y) then y :: insert_desc x l' else x :: l
  end.

Definition sorted_desc (l : list (nat * Q)) : list (nat * Q) :=
  fold_right insert_desc [] l.

(** [list(enumerate(row))] *)
Definition enumerate (row : list Q) : list (nat * Q) :=
  combine (seq 0 (List.length row)) row.

(** [xs[1 : top_n + 1]] *)
Definition slice_1 {A : Type} (top_n : nat) (xs : list A) : list A :=
  firstn top_n (skipn 1 xs).

(** [data.iloc[indices]] restricted to the returned columns. *)
Definition iloc (data : DataFrame) (indices : list nat) : list Product :=
  flat_map (fun i => match nth_error data i with
                     | Some it => [product_of it]
                     | None => []
                     end) indices.

(** Position of the first row that satisfies [p]: [matches.index[0]]. *)
Fixpoint first_index {A : Type} (p : A -> bool) (l : list A) : option nat :=
  match l with
  | [] => None
  | x :: l' => if p x then Some 0 else option_map S (first_index p l')
  end.

Section Recommender.

Context {engine : StrContains}.

(** [cosine_tfidf corpus a b]: the entry of
    [cosine_similarity(tfidf_matrix, tfidf_matrix)] for two rows whose tags
    are [a] and [b], the vectorizer having been fitted on [corpus].  The
    vector of a row is computed from its tags and the fitted vocabulary, so
    rows with the same tags have the same entries. *)
Variable cosine_tfidf : list string -> string -> string -> Q.

(** Step 2 of the source: the normalised query. *)
Definition normalize (item_name : string) : string :=
  PyStr.strip (PyStr.lower item_name).

(** The mask [data["Name"].astype(str).str.lower().str.contains(q, na=False)]
    on one row, for a pattern [q] that [re] accepts. *)
Definition name_matches (q : string) (it : Item) : bool :=
  str_contains q (PyStr.lower (Name it)).

(** The position of the first matching row, [None] when [matches.empty];
    on the default index it is the label [matches.index[0]]. *)
Definition item_index (data : DataFrame) (q : string) : option nat :=
  first_index (name_matches q) data.

(** [similarity_matrix[i]], the vectoriser having accepted the tags; the
    row is empty when [i] is no row number. *)
Definition similarity_row (data : DataFrame) (i : nat) : list Q :=
  let corpus := map (fun it => fillna (Tags it)) data in
  match nth_error corpus i with
  | Some t => map (cosine_tfidf corpus t) corpus
  | None => []
  end.

(** Step 5 of the source. *)
Definition top_similar_indices (data : DataFrame) (i top_n : nat) : list nat :=
  map fst (slice_1 top_n (sorted_desc (enumerate (similarity_row data i)))).

Definition content_based_recommendation
  (data : DataFrame) (item_name : PyArg) (top_n : nat) : list Product :=
  if negb (truth item_name) || negb (isinstance_str item_name) then []
  else
    match item_name with
    | PyOther _ => []
    | PyString s =>
        match item_index data (normalize s) with
        | None => []
        | Some i => iloc data (top_similar_indices data i top_n)
        end
    end.

End Recommender.

(** ** Evaluation harness *)

Inductive exn := ZeroDivisionError.

(** What a call does: it returns a value or raises. *)
Inductive outcome (A : Type) :=
| Returned (a : A)
| Raised (e : exn).
Arguments Returned {A} a.
Arguments Raised {A} e.

Definition bind {A B : Type} (m : outcome A) (k : A -> outcome B) : outcome B :=
  match m with
  | Returned a => k a
  | Raised e => Raised e
  end.

Notation "x <- m ;; k" := (bind m (fun x => k))
  (at level 61, m at next level, right associativity).

(** Python's [a / b] *)
Definition truediv (a b : Q) : outcome Q :=
  if Qeq_bool b 0 then Raised ZeroDivisionError else Returned (a / b)%Q.

Record Metrics := {
  precision : Q;
  recall : Q;
  f1 : Q
}.

(** The values [evaluate_content_based_metrics] returns: [True], [None] or
    the dictionary of the three scores. *)
Inductive PyValue :=
| PyTrue
| PyNone
| PyDict (m : Metrics).

(** [col == v] on one cell; a missing cell, or a missing [v], compares
    unequal. *)
Definition cell_eq (c v : option string) : bool :=
  match c, v with
  | Some a, Some b => (a =? b)%string
  | _, _ => false
  end.

(** [if item_category:]; NaN is a float other than zero. *)
Definition truthy (c : option string) : bool :=
  match c with
  | Some s => negb (s =? "")%string
  | None => true
  end.

(** [set(xs)] as the list of its elements. *)
Definition set_of (xs : list string) : list string := nodup string_dec xs.

(** [len(a & b)] *)
Definition inter_size (a b : list string) : nat :=
  List.length (filter (fun x => existsb (String.eqb x) b) a).

Section Evaluation.

Context {engine : StrContains}.
Variable cosine_tfidf : list string -> string -> string -> Q.

(** Step 2 of the harness. *)
Definition relevant_items (data : DataFrame) (item_category : option string)
  : list string :=
  set_of
    ((if truthy item_category
      then map Name (filter (fun it => cell_eq (Category it) item_category) data)
      else [])
     ++ map Name (filter (fun it => cell_eq (Brand it) item_category) data)).

Definition evaluate_content_based_metrics
  (data : DataFrame) (item_name : string) (top_n : nat) : outcome PyValue :=
  match filter (fun it => (Name it =? item_name)%string) data with
  | [] => Returned PyTrue
  | item_data :: _ =>
      let item_category := Category item_data in
      let relevant := relevant_items data item_category in
      let total_relevant := (Z.of_nat (List.length relevant) - 1)%Z in
      match content_based_recommendation cosine_tfidf data
              (PyString item_name) top_n with
      | [] => Returned PyNone
      | recs =>
          let recommend_names := set_of (map product_Name recs) in
          let true_positives := inter_size recommend_names relevant in
          p <- truediv (inject_Z (Z.of_nat true_positives))
                       (inject_Z (Z.of_nat top_n)) ;;
          r <- (if (total_relevant >? 0)%Z
                then truediv (inject_Z (Z.of_nat true_positives))
                             (inject_Z total_relevant)
                else Returned 0%Q) ;;
          f <- (if Qltb 0 (p + r)
                then truediv (2 * (p * r)) (p * r)
                else Returned 0%Q) ;;
          Returned (PyDict {| precision := p; recall := r; f1 := f |})
      end
  end.

End Evaluation.

(** ** Notions used to state the properties *)

(** [ranks_before a b]: the entry [a] comes before [b] in the ranking, by
    the higher score and, for equal scores, by the lower position. *)
Definition ranks_before (a b : nat * Q) : Prop :=
  (snd b < snd a)%Q \/ ((snd a == snd b)%Q /\ fst a < fst b).

Definition by_position (a b : nat * Q) : Prop := fst a < fst b.

Section Ranking.

Variable cosine_tfidf : list string -> string -> string -> Q.

(** Cosine similarity of row [j] to the anchor row [i]. *)
Definition score (data : DataFrame) (i j : nat) : Q :=
  nth j (similarity_row cosine_tfidf data i) 0%Q.

(** Row [a] is ranked before row [b]: it is more similar to the anchor, or
    as similar and earlier in the catalog. *)
Definition outranks (data : DataFrame) (i a b : nat) : Prop :=
  (score data i b < score data i a)%Q
  \/ ((score data i a == score data i b)%Q /\ a < b).

(** All rows of the catalog, ranked. *)
Definition ranking (data : DataFrame) (i : nat) : list nat :=
  map fst (sorted_desc (enumerate (similarity_row cosine_tfidf data i))).

End Ranking.

(** The metrics as the specification words them, over row positions. *)
Module Spec.

(** The rows sharing the category of the query row [q], [q] itself left
    out; empty when the category is absent. *)
Definition relevant_set (data : DataFrame) (q : nat) : list nat :=
  match nth_error data q with
  | None => []
  | Some it =>
      filter (fun j => negb (j =? q) &&
                       match nth_error data j with
                       | Some it' => cell_eq (Category it') (Category it)
                       | None => false
                       end)
             (seq 0 (List.length data))
  end.

(** Size of the intersection of retrieved and relevant. *)
Definition hits (retrieved relevant : list nat) : nat :=
  List.length (filter (fun j => existsb (Nat.eqb j) relevant) retrieved).

Definition precision (retrieved relevant : list nat) (top_n : nat) : Q :=
  (inject_Z (Z.of_nat (hits retrieved relevant)) / inject_Z (Z.of_nat top_n))%Q.

Definition recall (retrieved relevant : list nat) : Q :=
  match relevant with
  | [] => 0%Q
  | _ => (inject_Z (Z.of_nat (hits retrieved relevant))
          / inject_Z (Z.of_nat (List.length relevant)))%Q
  end.

(** Harmonic mean of [p] and [r], 0 when both are 0. *)
Definition harmonic_mean (p r : Q) : Q :=
  if Qeq_bool (p + r) 0 then 0%Q else (2 * p * r / (p + r))%Q.

End Spec.

(** ** A second engine: [.] stands for any character but the newline, every
    other character for itself.  It agrees with [re] on the patterns written
    with ordinary characters and dots. *)
Module Dot.

Definition matches_char (p c : ascii) : bool :=
  (Ascii.eqb p "." && negb (Ascii.eqb c "010")) || Ascii.eqb p c.

Fixpoint matches_here (pat s : string) : bool :=
  match pat, s with
  | EmptyString, _ => true
  | String _ _, EmptyString => false
  | String p pat', String c s' => matches_char p c && matches_here pat' s'
  end.

Fixpoint search (pat s : string) : bool :=
  matches_here pat s ||
  match s with
  | EmptyString => false
  | String _ s' => search pat s'
  end.

End Dot.

(** ** The engine with dots meets the interface *)

Lemma re_plain_not_dot (p : ascii) :
  re_special p = false -> Ascii.eqb p "." = false.
Proof.
  unfold re_special; simpl. intros H.
  apply orb_false_elim in H. tauto.
Qed.

Lemma dot_matches_here_plain (pat s : string) :
  re_plain pat = true -> Dot.matches_here pat s = PyStr.startswith pat s.
Proof.
  revert s. induction pat as [|p pat IH]; intros s H; destruct s as [|c s];
    simpl; try reflexivity.
  simpl in H. apply andb_prop in H. destruct H as [Hp Hpat].
  apply negb_true_iff, re_plain_not_dot in Hp.
  unfold Dot.matches_char. rewrite Hp, IH by assumption. reflexivity.
Qed.

Lemma dot_search_plain (pat s : string) :
  re_plain pat = true -> Dot.search pat s = PyStr.str_in pat s.
Proof.
  intros H. induction s as [|c s IH]; simpl;
    rewrite dot_matches_here_plain by assumption; [reflexivity|].
  now rewrite IH.
Qed.

Definition dot_engine : StrContains :=
  {| str_contains := Dot.search;
     str_contains_plain := dot_search_plain |}.

(** ** Sample catalogs *)

Module Sample.

Definition row (name brand category tags : string) : Item :=
  {| Name := name;
     Brand := Some brand;
     Rating := Some (9 # 2);
     ReviewCount := Some 12%Z;
     ImageURL := None;
     Tags := Some tags;
     Category := Some category |}.

(** Two products of one category with the same tags. *)
Definition creams : DataFrame :=
  [ row "Rose Cream" "Flora" "Beauty" "face cream moisturizer";
    row "Lily Lotion" "Petal" "Beauty" "face cream moisturizer" ].

(** The longer name comes first and contains the shorter one. *)
Definition apples : DataFrame :=
  [ row "Apple Pie" "Oven" "Bakery" "sweet apple";
    row "Apple" "Orchard" "Fruit" "sweet apple" ].

(** The second product has the tags of the first. *)
Definition serums : DataFrame :=
  [ row "Alpha Serum" "Lab" "Skin" "vitamin c serum";
    row "Beta Serum" "Lab" "Hair" "vitamin c serum" ].

(** The brand of the second product is spelt like the category of the
    first. *)
Definition orchard : DataFrame :=
  [ row "Gala" "Orchard" "Apple" "fresh crisp";
    row "Charger" "Apple" "Electronics" "fresh crisp" ].

(** No name holds a dot. *)
Definition soaps : DataFrame :=
  [ row "Shampoo" "Suds" "Hair" "gentle wash";
    row "Soap" "Suds" "Bath" "gentle wash" ].

(** A single product. *)
Definition lone : DataFrame :=
  [ row "Gala" "Orchard" "Apple" "fresh crisp" ].

(** A stand-in for the similarity: 1 for equal tags, 0 otherwise. *)
Definition same_tags (corpus : list string) (a b : string) : Q :=
  if (a =? b)%string then 1%Q else 0%Q.

End Sample.

(** * Properties *)

(** ** Comparisons on scores *)

Lemma Qltb_true (x y : Q) : Qltb x y = true <-> (x < y)%Q.
Proof.
  unfold Qltb. rewrite negb_true_iff, <- not_true_iff_false, Qle_bool_iff.
  split; [apply Qnot_le_lt | apply Qlt_not_le].
Qed.

Lemma Qltb_false (x y : Q) : Qltb x y = false <-> (y <= x)%Q.
Proof.
  unfold Qltb. rewrite negb_false_iff. apply Qle_bool_iff.
Qed.

Lemma Qltb_irrefl (x : Q) : Qltb x x = false.
Proof. apply Qltb_false, Qle_refl. Qed.

(** ** The ranking is the stable descending sort *)

Lemma insert_desc_In (x y : nat * Q) (l : list (nat * Q)) :
  In y (insert_desc x l) <-> y = x \/ In y l.
Proof.
  induction l as [|z l IH]; simpl.
  - intuition.
  - destruct (Qltb (snd x) (snd z)); simpl; rewrite ?IH; intuition.
Qed.

Lemma insert_desc_length (x : nat * Q) (l : list (nat * Q)) :
  List.length (insert_desc x l) = S (List.length l).
Proof.
  induction l as [|z l IH]; simpl; auto.
  destruct (Qltb (snd x) (snd z)); simpl; auto.
Qed.

Lemma insert_desc_perm (x : nat * Q) (l : list (nat * Q)) :
  Permutation (x :: l) (insert_desc x l).
Proof.
  induction l as [|z l IH]; simpl; auto.
  destruct (Qltb (snd x) (snd z)); auto.
  eapply perm_trans; [apply perm_swap | apply perm_skip, IH].
Qed.

Lemma insert_desc_sorted (x : nat * Q) (l : list (nat * Q)) :
  StronglySorted ranks_before l ->
  Forall (by_position x) l ->
  StronglySorted ranks_before (insert_desc x l).
Proof.
  induction 1 as [|z l Hs IH Hz]; intros Hpos; simpl.
  - repeat constructor.
  - inversion Hpos as [|? ? Hxz Hxl]; subst.
    destruct (Qltb (snd x) (snd z)) eqn:E.
    + apply Qltb_true in E. constructor; [auto|].
      rewrite Forall_forall. intros y Hy.
      apply insert_desc_In in Hy. destruct Hy as [->|Hy].
      * left; exact E.
      * rewrite Forall_forall in Hz. auto.
    + apply Qltb_false in E. constructor; [constructor; auto|].
      assert (Hxz' : ranks_before x z).
      { destruct (Qle_lt_or_eq _ _ E) as [Hlt|Heq].
        - left; exact Hlt.
        - right; split; [symmetry; exact Heq | exact Hxz]. }
      constructor; [exact Hxz'|].
      rewrite Forall_forall in *. intros y Hy.
      assert (Hyz : (snd y <= snd z)%Q).
      { destruct (Hz y Hy) as [Hlt|[Heq _]].
        - apply Qlt_le_weak, Hlt.
        - rewrite Heq. apply Qle_refl. }
      assert (Hyx : (snd y <= snd x)%Q) by (eapply Qle_trans; eauto).
      destruct (Qle_lt_or_eq _ _ Hyx) as [Hlt|Heq].
      * left; exact Hlt.
      * right; split; [symmetry; exact Heq | apply Hxl, Hy].
Qed.

Lemma sorted_desc_perm (l : list (nat * Q)) : Permutation l (sorted_desc l).
Proof.
  induction l as [|x l IH]; simpl; auto.
  eapply perm_trans; [apply perm_skip, IH | apply insert_desc_perm].
Qed.

Lemma sorted_desc_length (l : list (nat * Q)) :
  List.length (sorted_desc l) = List.length l.
Proof. symmetry. apply Permutation_length, sorted_desc_perm. Qed.

Lemma sorted_desc_sorted (l : list (nat * Q)) :
  StronglySorted by_position l -> StronglySorted ranks_before (sorted_desc l).
Proof.
  induction 1 as [|x l Hs IH Hx]; simpl.
  - constructor.
  - apply insert_desc_sorted; [exact IH|].
    rewrite Forall_forall in *. intros y Hy. apply Hx.
    eapply Permutation_in; [apply Permutation_sym, sorted_desc_perm | exact Hy].
Qed.

(** ** [enumerate] *)

Lemma combine_seq_fst {A : Type} (row : list A) (k : nat) :
  map fst (combine (seq k (List.length row)) row) = seq k (List.length row).
Proof.
  revert k. induction row as [|x row IH]; intros k; simpl; [reflexivity|].
  now rewrite IH.
Qed.

Lemma combine_seq_In {A : Type} (row : list A) (k j : nat) (q : A) :
  In (j, q) (combine (seq k (List.length row)) row) ->
  k <= j /\ nth_error row (j - k) = Some q.
Proof.
  revert k. induction row as [|x row IH]; intros k; simpl; [tauto|].
  intros [E|H].
  - inversion E; subst. rewrite Nat.sub_diag. auto.
  - apply IH in H. destruct H as [Hk Hn]. split; [lia|].
    replace (j - k) with (S (j - S k)) by lia. exact Hn.
Qed.

Lemma enumerate_fst (row : list Q) :
  map fst (enumerate row) = seq 0 (List.length row).
Proof. apply combine_seq_fst. Qed.

Lemma enumerate_In (row : list Q) (j : nat) (q : Q) :
  In (j, q) (enumerate row) -> nth_error row j = Some q.
Proof.
  intros H. apply combine_seq_In in H. now rewrite Nat.sub_0_r in H.
Qed.

Lemma enumerate_length (row : list Q) :
  List.length (enumerate row) = List.length row.
Proof.
  unfold enumerate. rewrite length_combine, length_seq. apply Nat.min_id.
Qed.

Lemma combine_seq_by_position (row : list Q) (k : nat) :
  StronglySorted by_position (combine (seq k (List.length row)) row).
Proof.
  revert k. induction row as [|x row IH]; intros k; simpl; constructor.
  - apply IH.
  - rewrite Forall_forall. intros [j q] H.
    apply combine_seq_In in H. unfold by_position; simpl. lia.
Qed.

Lemma enumerate_by_position (row : list Q) :
  StronglySorted by_position (enumerate row).
Proof. apply combine_seq_by_position. Qed.

(** ** [first_index] *)

Lemma first_index_Some {A : Type} (p : A -> bool) (l : list A) (i : nat) :
  first_index p l = Some i ->
  exists x, nth_error l i = Some x /\ p x = true /\
            forall j y, j < i -> nth_error l j = Some y -> p y = false.
Proof.
  revert i. induction l as [|x l IH]; intros i; simpl; [discriminate|].
  destruct (p x) eqn:Hp.
  - intros E; inversion E; subst. exists x. repeat split; auto. lia.
  - destruct (first_index p l) as [k|]; simpl; [|discriminate].
    intros E; inversion E; subst.
    destruct (IH k eq_refl) as (y & Hy & Hpy & Hbefore).
    exists y. repeat split; auto.
    intros [|j] z Hj Hz; simpl in Hz.
    + now inversion Hz; subst.
    + apply (Hbefore j); [lia | exact Hz].
Qed.

Lemma first_index_None {A : Type} (p : A -> bool) (l : list A) :
  first_index p l = None <-> forall x, In x l -> p x = false.
Proof.
  induction l as [|x l IH]; simpl.
  - split; [intros _ ? [] | reflexivity].
  - destruct (p x) eqn:Hp.
    + split; [discriminate|]. intros H. rewrite (H x) in Hp; [discriminate|auto].
    + destruct (first_index p l); simpl.
      * split; [discriminate|]. intros H.
        assert (Hn : Some n = None) by (apply IH; intros y Hy; apply H; auto).
        discriminate.
      * split; [|reflexivity]. intros _ y [<-|Hy]; [exact Hp|].
        now apply IH.
Qed.

Lemma first_index_ext {A : Type} (p q : A -> bool) (l : list A) :
  (forall x, In x l -> p x = q x) -> first_index p l = first_index q l.
Proof.
  induction l as [|x l IH]; intros H; simpl; [reflexivity|].
  rewrite (H x) by (simpl; auto).
  rewrite IH; [reflexivity|]. intros y Hy. apply H. simpl; auto.
Qed.

Lemma first_index_lt {A : Type} (p : A -> bool) (l : list A) (i : nat) :
  first_index p l = Some i -> i < List.length l.
Proof.
  intros H. apply first_index_Some in H. destruct H as (x & Hx & _).
  apply nth_error_Some. congruence.
Qed.

(** ** [iloc] *)

Lemma iloc_rows (data : DataFrame) (indices : list nat) :
  Forall (fun j => j < List.length data) indices ->
  Forall2 (fun j p => exists it, nth_error data j = Some it /\ p = product_of it)
          indices (iloc data indices).
Proof.
  induction 1 as [|j indices Hj _ IH]; simpl; [constructor|].
  destruct (nth_error data j) as [it|] eqn:E.
  - simpl. constructor; [exists it; auto | exact IH].
  - apply nth_error_None in E. lia.
Qed.

Lemma iloc_length (data : DataFrame) (indices : list nat) :
  Forall (fun j => j < List.length data) indices ->
  List.length (iloc data indices) = List.length indices.
Proof.
  intros H. symmetry. eapply Forall2_length, iloc_rows, H.
Qed.

(** ** The slice [1 : top_n + 1] *)

Lemma slice_1_length {A : Type} (top_n : nat) (xs : list A) :
  List.length (slice_1 top_n xs) = Nat.min top_n (List.length xs - 1).
Proof.
  unfold slice_1. rewrite length_firstn, length_skipn. reflexivity.
Qed.

Lemma firstn_In {A : Type} (n : nat) (l : list A) (x : A) :
  In x (firstn n l) -> In x l.
Proof.
  revert n. induction l as [|y l IH]; intros [|n]; simpl; try tauto.
  intros [->|H]; [left; reflexivity | right; eapply IH, H].
Qed.

Lemma slice_1_incl {A : Type} (top_n : nat) (xs : list A) (x : A) :
  In x (slice_1 top_n xs) -> In x xs.
Proof.
  unfold slice_1. intros H. apply firstn_In in H.
  destruct xs; simpl in H; [contradiction | right; exact H].
Qed.

Lemma slice_1_map {A B : Type} (f : A -> B) (top_n : nat) (xs : list A) :
  map f (slice_1 top_n xs) = slice_1 top_n (map f xs).
Proof.
  unfold slice_1. now rewrite <- firstn_map, <- skipn_map.
Qed.

Lemma StronglySorted_firstn {A : Type} (R : A -> A -> Prop) (n : nat) (l : list A) :
  StronglySorted R l -> StronglySorted R (firstn n l).
Proof.
  intros H. revert n. induction H as [|x l Hs IH Hx]; intros [|n]; simpl;
    try constructor; auto.
  rewrite Forall_forall in *. intros y Hy. apply Hx. eapply firstn_In, Hy.
Qed.

Lemma slice_1_sorted {A : Type} (R : A -> A -> Prop) (top_n : nat) (xs : list A) :
  StronglySorted R xs -> StronglySorted R (slice_1 top_n xs).
Proof.
  intros H. unfold slice_1. apply StronglySorted_firstn.
  destruct H; simpl; [constructor | assumption].
Qed.

Lemma StronglySorted_map {A B : Type} (R : A -> A -> Prop) (R' : B -> B -> Prop)
  (f : A -> B) (l : list A) :
  (forall a b, In a l -> In b l -> R a b -> R' (f a) (f b)) ->
  StronglySorted R l -> StronglySorted R' (map f l).
Proof.
  intros Hf H. induction H as [|x l Hs IH Hx]; simpl; constructor.
  - apply IH. intros a b Ha Hb. apply Hf; simpl; auto.
  - rewrite Forall_forall in *. intros y Hy.
    apply in_map_iff in Hy. destruct Hy as (a & <- & Ha).
    apply Hf; simpl; auto.
Qed.

(** ** The ranking of the catalog *)

Section RankingFacts.

Variable cosine_tfidf : list string -> string -> string -> Q.

Lemma similarity_row_length (data : DataFrame) (i : nat) :
  i < List.length data ->
  List.length (similarity_row cosine_tfidf data i) = List.length data.
Proof.
  intros Hi. unfold similarity_row.
  destruct (nth_error _ i) eqn:E.
  - now rewrite !length_map.
  - apply nth_error_None in E. rewrite length_map in E. lia.
Qed.

(** The score of row [j] is the cosine similarity of its tags to those of
    the anchor. *)
Lemma score_cosine (data : DataFrame) (i j : nat) (a b : Item) :
  nth_error data i = Some a -> nth_error data j = Some b ->
  score cosine_tfidf data i j
  = cosine_tfidf (map (fun it => fillna (Tags it)) data)
      (fillna (Tags a)) (fillna (Tags b)).
Proof.
  intros Ha Hb. unfold score, similarity_row.
  rewrite (map_nth_error _ _ _ Ha).
  apply nth_error_nth.
  now rewrite (map_nth_error _ _ (map _ data) (map_nth_error _ _ _ Hb)).
Qed.

Lemma top_similar_indices_ranking (data : DataFrame) (i top_n : nat) :
  top_similar_indices cosine_tfidf data i top_n
  = slice_1 top_n (ranking cosine_tfidf data i).
Proof. unfold top_similar_indices, ranking. apply slice_1_map. Qed.

Lemma ranking_perm (data : DataFrame) (i : nat) :
  i < List.length data ->
  Permutation (ranking cosine_tfidf data i) (seq 0 (List.length data)).
Proof.
  intros Hi. unfold ranking.
  rewrite <- (similarity_row_length data i Hi), <- enumerate_fst.
  apply Permutation_map, Permutation_sym, sorted_desc_perm.
Qed.

Lemma ranking_sorted (data : DataFrame) (i : nat) :
  StronglySorted (outranks cosine_tfidf data i) (ranking cosine_tfidf data i).
Proof.
  unfold ranking.
  apply StronglySorted_map with (R := ranks_before);
    [|apply sorted_desc_sorted, enumerate_by_position].
  assert (Hsc : forall a, In a (sorted_desc (enumerate
                  (similarity_row cosine_tfidf data i))) ->
                snd a = score cosine_tfidf data i (fst a)).
  { intros [j q] Ha.
    eapply Permutation_in in Ha; [|apply Permutation_sym, sorted_desc_perm].
    apply enumerate_In in Ha. unfold score; simpl.
    symmetry. now apply nth_error_nth. }
  intros a b Ha Hb Hab. unfold outranks.
  rewrite <- (Hsc a Ha), <- (Hsc b Hb). exact Hab.
Qed.

Lemma ranking_length (data : DataFrame) (i : nat) :
  i < List.length data ->
  List.length (ranking cosine_tfidf data i) = List.length data.
Proof.
  intros Hi. rewrite (Permutation_length (ranking_perm data i Hi)).
  apply length_seq.
Qed.

Lemma top_similar_indices_in_range (data : DataFrame) (i top_n : nat) :
  i < List.length data ->
  Forall (fun j => j < List.length data)
         (top_similar_indices cosine_tfidf data i top_n).
Proof.
  intros Hi. rewrite Forall_forall. intros j Hj.
  rewrite top_similar_indices_ranking in Hj. apply slice_1_incl in Hj.
  eapply Permutation_in in Hj; [|apply ranking_perm, Hi].
  apply in_seq in Hj. lia.
Qed.

End RankingFacts.

(** ** Strings *)

Lemma eqb_empty_false (s : string) : s <> "" -> (s =? "")%string = false.
Proof. intros H. now apply String.eqb_neq. Qed.

Lemma isspace_lower_char (c : ascii) :
  PyStr.isspace c = true -> PyStr.lower_char c = c.
Proof.
  destruct c as [[] [] [] [] [] [] [] []]; vm_compute; congruence.
Qed.

Lemma lower_whitespace (s : string) :
  PyStr.all_chars PyStr.isspace s = true -> PyStr.lower s = s.
Proof.
  induction s as [|c s IH]; simpl; [reflexivity|].
  intros H. apply andb_prop in H. destruct H as [Hc Hs].
  now rewrite isspace_lower_char, IH.
Qed.

Lemma lstrip_whitespace (s : string) :
  PyStr.all_chars PyStr.isspace s = true -> PyStr.lstrip s = "".
Proof.
  induction s as [|c s IH]; simpl; [reflexivity|].
  intros H. apply andb_prop in H. destruct H as [Hc Hs].
  rewrite Hc. auto.
Qed.

Lemma str_in_empty (s : string) : PyStr.str_in "" s = true.
Proof. destruct s; reflexivity. Qed.

(** ** The recommender, step by step *)

Section RecommenderFacts.

Context {engine : StrContains}.
Variable cosine_tfidf : list string -> string -> string -> Q.

Lemma recommendation_of_string (data : DataFrame) (s : string) (top_n : nat) :
  s <> "" ->
  content_based_recommendation cosine_tfidf data (PyString s) top_n
  = match item_index data (normalize s) with
    | None => []
    | Some i => iloc data (top_similar_indices cosine_tfidf data i top_n)
    end.
Proof.
  intros Hs. unfold content_based_recommendation; simpl.
  now rewrite eqb_empty_false.
Qed.

Lemma normalize_whitespace (s : string) :
  PyStr.all_chars PyStr.isspace s = true -> normalize s = "".
Proof.
  intros H. unfold normalize, PyStr.strip.
  now rewrite lower_whitespace, lstrip_whitespace.
Qed.

Lemma item_index_plain (data : DataFrame) (q : string) :
  re_plain q = true ->
  item_index data q
  = first_index (fun it => PyStr.str_in q (PyStr.lower (Name it))) data.
Proof.
  intros Hq. apply first_index_ext. intros it _.
  unfold name_matches. now apply str_contains_plain.
Qed.

Lemma recommendation_length (data : DataFrame) (s : string) (top_n i : nat) :
  s <> "" ->
  item_index data (normalize s) = Some i ->
  List.length (content_based_recommendation cosine_tfidf data (PyString s) top_n)
  = Nat.min top_n (List.length data - 1).
Proof.
  intros Hs Hi. rewrite recommendation_of_string, Hi by assumption.
  pose proof (first_index_lt _ _ _ Hi) as Hlt.
  rewrite iloc_length by now apply top_similar_indices_in_range.
  rewrite top_similar_indices_ranking, slice_1_length, ranking_length; auto.
Qed.

(** When the anchor heads the ranking, the slice leaves it out. *)
Lemma anchor_skipped_when_first (data : DataFrame) (i top_n : nat) :
  i < List.length data ->
  hd_error (ranking cosine_tfidf data i) = Some i ->
  ~ In i (top_similar_indices cosine_tfidf data i top_n).
Proof.
  intros Hi Hhd Hin. rewrite top_similar_indices_ranking in Hin.
  assert (Hnd : NoDup (ranking cosine_tfidf data i)).
  { eapply Permutation_NoDup; [apply Permutation_sym, ranking_perm, Hi|].
    apply seq_NoDup. }
  unfold slice_1 in Hin. apply firstn_In in Hin.
  destruct (ranking cosine_tfidf data i) as [|j rest]; simpl in *; [discriminate|].
  inversion Hhd; subst. inversion Hnd; contradiction.
Qed.

End RecommenderFacts.

(** ** Two rows with the same tags *)

Section TwoRows.

Context {engine : StrContains}.
Variable cosine_tfidf : list string -> string -> string -> Q.

(** Both rows have the same score against either anchor, so the stable sort
    leaves them in catalog order. *)
Lemma ranking_same_tags (a b : Item) (i : nat) :
  fillna (Tags a) = fillna (Tags b) -> i < 2 ->
  ranking cosine_tfidf [a; b] i = [0; 1].
Proof.
  intros Ht Hi. unfold ranking, similarity_row; simpl.
  rewrite <- Ht.
  destruct i as [|[|i]]; simpl; try lia;
    unfold enumerate; simpl; now rewrite Qltb_irrefl.
Qed.

Lemma top_similar_same_tags (a b : Item) (i top_n : nat) :
  fillna (Tags a) = fillna (Tags b) -> i < 2 ->
  top_similar_indices cosine_tfidf [a; b] i (S top_n) = [1].
Proof.
  intros Ht Hi. rewrite top_similar_indices_ranking, ranking_same_tags by assumption.
  unfold slice_1; simpl. now rewrite firstn_nil.
Qed.

Lemma recommendation_same_tags (a b : Item) (s : string) (i top_n : nat) :
  s <> "" -> fillna (Tags a) = fillna (Tags b) ->
  item_index [a; b] (normalize s) = Some i ->
  content_based_recommendation cosine_tfidf [a; b] (PyString s) (S top_n)
  = [product_of b].
Proof.
  intros Hs Ht Hi. rewrite recommendation_of_string, Hi by assumption.
  apply first_index_lt in Hi. simpl in Hi.
  rewrite top_similar_same_tags by assumption. reflexivity.
Qed.

End TwoRows.

(** * The recommender *)

Section RecommenderClaims.

Context {engine : StrContains}.
Variable cosine_tfidf : list string -> string -> string -> Q.

(** C8: for every catalog and every [top_n], a query that is the empty
    string, or that is not a string at all, makes
    [content_based_recommendation] return the empty frame; no library call is
    reached, so nothing can be raised. *)
Theorem empty_or_non_string_query_returns_empty
  (data : DataFrame) (top_n : nat) :
  content_based_recommendation cosine_tfidf data (PyString "") top_n = []
  /\ forall b, content_based_recommendation cosine_tfidf data
                 (PyOther b) top_n = [].
Proof.
  split; [reflexivity|]. intros []; reflexivity.
Qed.

(** For a query whose normal form has no special character, the anchor is
    the first row, in catalog order, whose lower-cased name contains the
    normal form; and nothing is returned when no name contains it. *)
Lemma plain_query_anchor (data : DataFrame) (s : string) (top_n : nat) :
  s <> "" -> re_plain (normalize s) = true ->
  (forall i, item_index data (normalize s) = Some i ->
     exists it, nth_error data i = Some it
       /\ PyStr.str_in (normalize s) (PyStr.lower (Name it)) = true
       /\ forall j it', j < i -> nth_error data j = Some it' ->
            PyStr.str_in (normalize s) (PyStr.lower (Name it')) = false)
  /\ ((forall it, In it data ->
         PyStr.str_in (normalize s) (PyStr.lower (Name it)) = false) ->
      content_based_recommendation cosine_tfidf data (PyString s) top_n = []).
Proof.
  intros Hs Hplain. rewrite recommendation_of_string by assumption.
  rewrite item_index_plain by assumption. split.
  - intros i Hi. apply first_index_Some in Hi. exact Hi.
  - intros Hnone.
    apply (first_index_None
             (fun it => PyStr.str_in (normalize s) (PyStr.lower (Name it)))) in Hnone.
    now rewrite Hnone.
Qed.

(** C6, where the code departs from it: the query [.] is handed to [re] as a
    pattern, and an engine that finds that pattern in [shampoo], as [re]
    does, anchors the recommendation at the first row and returns the second,
    although no name of the catalog contains a dot. *)
Theorem dot_query_anchors_without_substring :
  str_contains "." "shampoo" = true ->
  (forall it, In it Sample.soaps ->
     PyStr.str_in (normalize ".") (PyStr.lower (Name it)) = false)
  /\ item_index Sample.soaps (normalize ".") = Some 0
  /\ content_based_recommendation cosine_tfidf Sample.soaps (PyString ".") 10
     = [product_of (Sample.row "Soap" "Suds" "Bath" "gentle wash")].
Proof.
  intros Hdot.
  assert (Hi : item_index Sample.soaps (normalize ".") = Some 0).
  { change (item_index Sample.soaps (normalize "."))
      with (if str_contains "." "shampoo" then Some 0
            else option_map S
                   (if str_contains "." "soap" then Some 0 else None)).
    now rewrite Hdot. }
  split; [|split; [exact Hi|]].
  - intros it [<-|[<-|[]]]; reflexivity.
  - apply (recommendation_same_tags cosine_tfidf _ _ "." 0 9);
      [discriminate | reflexivity | exact Hi].
Qed.

(** C3, where the code departs from it: in [Sample.serums] the query [beta]
    resolves to row 1, whose tags are those of row 0.  Both rows score the
    same, the stable sort ranks row 0 first, the slice skips row 0, and the
    anchor itself is returned. *)
Theorem anchor_returned_behind_equal_score :
  item_index Sample.serums (normalize "beta") = Some 1
  /\ top_similar_indices cosine_tfidf Sample.serums 1 10 = [1]
  /\ content_based_recommendation cosine_tfidf Sample.serums (PyString "beta") 10
     = [product_of (Sample.row "Beta Serum" "Lab" "Hair" "vitamin c serum")].
Proof.
  assert (Hi : item_index Sample.serums (normalize "beta") = Some 1)
    by (rewrite item_index_plain by reflexivity; reflexivity).
  split; [exact Hi|split].
  - apply (top_similar_same_tags cosine_tfidf _ _ 1 9); [reflexivity | lia].
  - apply (recommendation_same_tags cosine_tfidf _ _ "beta" 1 9);
      [discriminate | reflexivity | exact Hi].
Qed.

End RecommenderClaims.

(** * The evaluation harness *)

Section EvaluationClaims.

Context {engine : StrContains}.
Variable cosine_tfidf : list string -> string -> string -> Q.

Lemma filter_none_by_name (data : DataFrame) (item_name : string) :
  (forall it, In it data -> Name it <> item_name) ->
  filter (fun it => (Name it =? item_name)%string) data = [].
Proof.
  induction data as [|it data IH]; intros H; simpl; [reflexivity|].
  rewrite (proj2 (String.eqb_neq _ _)) by (apply H; simpl; auto).
  apply IH. intros it' Hit'. apply H. simpl; auto.
Qed.

Lemma filter_some_by_name (data : DataFrame) (item_name : string) :
  (exists it, In it data /\ Name it = item_name) ->
  exists item_data rest,
    filter (fun it => (Name it =? item_name)%string) data = item_data :: rest.
Proof.
  intros (it & Hin & Hname).
  destruct (filter _ data) as [|x rest] eqn:E; [|eauto].
  assert (Hf : In it (filter (fun it => (Name it =? item_name)%string) data)).
  { apply filter_In. split; [exact Hin|]. now apply String.eqb_eq. }
  rewrite E in Hf. contradiction.
Qed.

(** C5: for every catalog, when no row is named [item_name] the harness
    returns [True]; the call returns, it does not raise, and [True] is not a
    record of scores. *)
Theorem absent_item_returns_true
  (data : DataFrame) (item_name : string) (top_n : nat) :
  (forall it, In it data -> Name it <> item_name) ->
  evaluate_content_based_metrics cosine_tfidf data item_name top_n
  = Returned PyTrue
  /\ forall m, PyTrue <> PyDict m.
Proof.
  intros H. split; [|discriminate].
  unfold evaluate_content_based_metrics. now rewrite filter_none_by_name.
Qed.

(** C10: for every catalog, when a row is named [item_name] and the
    recommender returns the empty frame for it, the harness returns [None]:
    neither the not-found signal [True] nor a record of scores. *)
Theorem present_item_without_recommendations_returns_none
  (data : DataFrame) (item_name : string) (top_n : nat) :
  (exists it, In it data /\ Name it = item_name) ->
  content_based_recommendation cosine_tfidf data (PyString item_name) top_n = [] ->
  evaluate_content_based_metrics cosine_tfidf data item_name top_n
  = Returned PyNone
  /\ PyNone <> PyTrue
  /\ forall m, PyNone <> PyDict m.
Proof.
  intros Hin Hrecs. repeat split; try discriminate.
  unfold evaluate_content_based_metrics.
  destruct (filter_some_by_name data item_name Hin) as (x & rest & ->).
  now rewrite Hrecs.
Qed.

(** Whenever the harness returns scores of which one is positive, the F1 it
    reports is 2: the quotient has the product, not the sum, below the
    line. *)
Lemma f1_is_two (data : DataFrame) (item_name : string) (top_n : nat)
  (m : Metrics) :
  evaluate_content_based_metrics cosine_tfidf data item_name top_n
  = Returned (PyDict m) ->
  (0 < precision m + recall m)%Q ->
  (f1 m == 2)%Q.
Proof.
  unfold evaluate_content_based_metrics.
  destruct (filter _ data) as [|item_data rest]; [discriminate|].
  destruct (content_based_recommendation _ _ _ _) as [|rec recs]; [discriminate|].
  set (tp := inject_Z (Z.of_nat _)).
  destruct (truediv tp _) as [p|] eqn:Ep; simpl; [|discriminate].
  match goal with
  | |- bind ?R _ = _ -> _ => destruct R as [r|] eqn:Er; simpl; [|discriminate]
  end.
  destruct (Qltb 0 (p + r)) eqn:Hpos.
  - unfold truediv at 1. destruct (Qeq_bool (p * r) 0) eqn:Hz; simpl; [discriminate|].
    intros E _. inversion E; subst; simpl.
    apply Qeq_bool_neq in Hz. apply Qdiv_mult_l, Hz.
  - simpl. intros E Hlt. inversion E; subst; simpl in Hlt.
    apply Qltb_false in Hpos. exfalso. eapply Qlt_not_le; eauto.
Qed.

End EvaluationClaims.

Section EvaluationSamples.

Context {engine : StrContains}.
Variable cosine_tfidf : list string -> string -> string -> Q.

(** C1, where the code departs from it: on [Sample.creams] the query
    [Rose Cream] is found, one recommendation comes back, precision is 1/10
    and recall is 1.  Their harmonic mean is 2/11; the F1 returned is 2. *)
Theorem f1_returned_is_not_harmonic_mean :
  exists m,
    evaluate_content_based_metrics cosine_tfidf Sample.creams "Rose Cream" 10
    = Returned (PyDict m)
    /\ (precision m == 1 # 10)%Q
    /\ (recall m == 1)%Q
    /\ (Spec.harmonic_mean (precision m) (recall m) == 2 # 11)%Q
    /\ (f1 m == 2)%Q.
Proof.
  assert (Hi : item_index Sample.creams (normalize "Rose Cream") = Some 0)
    by (rewrite item_index_plain by reflexivity; reflexivity).
  assert (Hrecs :
    content_based_recommendation cosine_tfidf Sample.creams
      (PyString "Rose Cream") 10
    = [product_of (Sample.row "Lily Lotion" "Petal" "Beauty"
                     "face cream moisturizer")])
    by (apply (recommendation_same_tags cosine_tfidf _ _ _ 0 9);
        [discriminate | reflexivity | exact Hi]).
  unfold evaluate_content_based_metrics. rewrite Hrecs.
  eexists. split; [vm_compute; reflexivity|].
  repeat split; vm_compute; reflexivity.
Qed.

(** C2, where the code departs from it: on [Sample.apples] the query [Apple]
    is the name of row 1, alone in its category, so [total_relevant] is 0 and
    recall is 0; the recommender anchors at row 0, [Apple Pie], and returns
    row 1, whose name is in [relevant_items], so precision is 1/10.  The sum
    is positive, the product is zero, and the quotient raises. *)
Theorem f1_division_raises :
  relevant_items Sample.apples (Some "Fruit") = ["Apple"]
  /\ content_based_recommendation cosine_tfidf Sample.apples (PyString "Apple") 10
     = [product_of (Sample.row "Apple" "Orchard" "Fruit" "sweet apple")]
  /\ evaluate_content_based_metrics cosine_tfidf Sample.apples "Apple" 10
     = Raised ZeroDivisionError.
Proof.
  assert (Hi : item_index Sample.apples (normalize "Apple") = Some 0)
    by (rewrite item_index_plain by reflexivity; reflexivity).
  assert (Hrecs :
    content_based_recommendation cosine_tfidf Sample.apples (PyString "Apple") 10
    = [product_of (Sample.row "Apple" "Orchard" "Fruit" "sweet apple")])
    by (apply (recommendation_same_tags cosine_tfidf _ _ _ 0 9);
        [discriminate | reflexivity | exact Hi]).
  split; [reflexivity | split; [exact Hrecs|]].
  unfold evaluate_content_based_metrics. rewrite Hrecs.
  vm_compute. reflexivity.
Qed.

(** C4, where the code departs from it: on [Sample.orchard] the query [Gala]
    has the category [Apple], which no other row shares, so the relevance set
    of the specification is empty and both precision and recall should be 0.
    The harness also collects the rows whose brand is [Apple]: [Charger]
    is counted as relevant, and it reports precision 1/10 and recall 1. *)
Theorem brand_rows_counted_as_relevant :
  Spec.relevant_set Sample.orchard 0 = []
  /\ relevant_items Sample.orchard (Some "Apple") = ["Gala"; "Charger"]
  /\ top_similar_indices cosine_tfidf Sample.orchard 0 10 = [1]
  /\ (Spec.precision [1%nat] (Spec.relevant_set Sample.orchard 0%nat) 10%nat == 0)%Q
  /\ (Spec.recall [1%nat] (Spec.relevant_set Sample.orchard 0%nat) == 0)%Q
  /\ exists m,
       evaluate_content_based_metrics cosine_tfidf Sample.orchard "Gala" 10
       = Returned (PyDict m)
       /\ (precision m == 1 # 10)%Q
       /\ (recall m == 1)%Q.
Proof.
  assert (Hi : item_index Sample.orchard (normalize "Gala") = Some 0)
    by (rewrite item_index_plain by reflexivity; reflexivity).
  assert (Hrecs :
    content_based_recommendation cosine_tfidf Sample.orchard (PyString "Gala") 10
    = [product_of (Sample.row "Charger" "Apple" "Electronics" "fresh crisp")])
    by (apply (recommendation_same_tags cosine_tfidf _ _ _ 0 9);
        [discriminate | reflexivity | exact Hi]).
  split; [reflexivity|]. split; [reflexivity|].
  split; [apply (top_similar_same_tags cosine_tfidf _ _ 0 9); [reflexivity|lia]|].
  split; [reflexivity|]. split; [reflexivity|].
  unfold evaluate_content_based_metrics. rewrite Hrecs.
  eexists. split; [vm_compute; reflexivity|].
  split; vm_compute; reflexivity.
Qed.

End EvaluationSamples.

(** * The theorems at sample inputs *)

(** A name that no row of [Sample.creams] has. *)
Lemma tulip_query_on_creams :
  (forall it, In it Sample.creams -> Name it <> "Tulip Balm")
  /\ evaluate_content_based_metrics (engine := literal_engine)
       Sample.same_tags Sample.creams "Tulip Balm" 10
     = Returned PyTrue.
Proof.
  assert (H : forall it, In it Sample.creams -> Name it <> "Tulip Balm")
    by (intros it [<-|[<-|[]]]; discriminate).
  split; [exact H|].
  exact (proj1 (absent_item_returns_true (engine := literal_engine)
                  Sample.same_tags Sample.creams "Tulip Balm" 10 H)).
Defined.

(** The only row of a catalog has nothing to be recommended. *)
Lemma lone_item_has_no_recommendation :
  (exists it, In it Sample.lone /\ Name it = "Gala")
  /\ content_based_recommendation (engine := literal_engine)
       Sample.same_tags Sample.lone (PyString "Gala") 10 = []
  /\ evaluate_content_based_metrics (engine := literal_engine)
       Sample.same_tags Sample.lone "Gala" 10
     = Returned PyNone.
Proof.
  assert (H1 : exists it, In it Sample.lone /\ Name it = "Gala")
    by (eexists; split; [left; reflexivity | reflexivity]).
  assert (H2 : content_based_recommendation (engine := literal_engine)
                 Sample.same_tags Sample.lone (PyString "Gala") 10 = [])
    by reflexivity.
  split; [exact H1 | split; [exact H2|]].
  exact (proj1 (present_item_without_recommendations_returns_none
                  (engine := literal_engine)
                  Sample.same_tags Sample.lone "Gala" 10 H1 H2)).
Defined.

(** The query [.] under the engine with dots. *)
Lemma dot_engine_on_soaps :
  str_contains (StrContains := dot_engine) "." "shampoo" = true
  /\ item_index (engine := dot_engine) Sample.soaps (normalize ".") = Some 0
  /\ content_based_recommendation (engine := dot_engine)
       Sample.same_tags Sample.soaps (PyString ".") 10
     = [product_of (Sample.row "Soap" "Suds" "Bath" "gentle wash")].
Proof.
  assert (H : str_contains (StrContains := dot_engine) "." "shampoo" = true)
    by reflexivity.
  split; [exact H|].
  exact (proj2 (dot_query_anchors_without_substring (engine := dot_engine)
                  Sample.same_tags H)).
Defined.

(** * Further properties of the recommender *)

(** ** The normal form of a query *)

Lemma lower_char_idem (c : ascii) :
  PyStr.lower_char (PyStr.lower_char c) = PyStr.lower_char c.
Proof.
  destruct c as [[] [] [] [] [] [] [] []]; vm_compute; reflexivity.
Qed.

Lemma lower_idem (s : string) : PyStr.lower (PyStr.lower s) = PyStr.lower s.
Proof.
  induction s as [|c s IH]; simpl; [reflexivity|].
  now rewrite lower_char_idem, IH.
Qed.

Lemma lower_app (a b : string) :
  PyStr.lower (a ++ b) = (PyStr.lower a ++ PyStr.lower b)%string.
Proof.
  induction a as [|c a IH]; simpl; [reflexivity|]. now rewrite IH.
Qed.

Lemma lower_empty (s : string) : PyStr.lower s = "" -> s = "".
Proof. destruct s; simpl; [reflexivity | discriminate]. Qed.

Lemma rstrip_whitespace (s : string) :
  PyStr.all_chars PyStr.isspace s = true -> PyStr.rstrip s = "".
Proof.
  induction s as [|c s IH]; simpl; [reflexivity|].
  intros H. apply andb_prop in H. destruct H as [Hc Hs].
  now rewrite IH, Hc.
Qed.

Lemma lstrip_app_left (w s : string) :
  PyStr.all_chars PyStr.isspace w = true ->
  PyStr.lstrip (w ++ s) = PyStr.lstrip s.
Proof.
  induction w as [|c w IH]; simpl; [reflexivity|].
  intros H. apply andb_prop in H. destruct H as [Hc Hw].
  rewrite Hc. auto.
Qed.

Lemma rstrip_app_right (s w : string) :
  PyStr.all_chars PyStr.isspace w = true ->
  PyStr.rstrip (s ++ w) = PyStr.rstrip s.
Proof.
  intros Hw. induction s as [|c s IH]; simpl.
  - now apply rstrip_whitespace.
  - now rewrite IH.
Qed.

Lemma strip_app_right (s w : string) :
  PyStr.all_chars PyStr.isspace w = true ->
  PyStr.strip (s ++ w) = PyStr.strip s.
Proof.
  intros Hw. unfold PyStr.strip. induction s as [|c s IH]; simpl.
  - now rewrite lstrip_whitespace.
  - destruct (PyStr.isspace c); [exact IH|].
    apply (rstrip_app_right (String c s) w Hw).
Qed.

Lemma normalize_padded (l s r : string) :
  PyStr.all_chars PyStr.isspace l = true ->
  PyStr.all_chars PyStr.isspace r = true ->
  normalize (l ++ s ++ r) = normalize s.
Proof.
  intros Hl Hr. unfold normalize.
  rewrite !lower_app, (lower_whitespace l Hl), (lower_whitespace r Hr).
  unfold PyStr.strip at 1. rewrite lstrip_app_left by assumption.
  apply (strip_app_right (PyStr.lower s) r Hr).
Qed.

Lemma normalize_lower (s : string) : normalize (PyStr.lower s) = normalize s.
Proof. unfold normalize. now rewrite lower_idem. Qed.

(** ** Who is ranked first *)

Section RankingOrder.

Variable cosine_tfidf : list string -> string -> string -> Q.

Lemma outranks_irrefl (data : DataFrame) (i a : nat) :
  ~ outranks cosine_tfidf data i a a.
Proof.
  intros [H|[_ H]]; [exact (Qlt_irrefl _ H) | lia].
Qed.

Lemma outranks_asym (data : DataFrame) (i a b : nat) :
  outranks cosine_tfidf data i a b -> ~ outranks cosine_tfidf data i b a.
Proof.
  intros [Hab|[Eab Lab]] [Hba|[Eba Lba]].
  - exact (Qlt_irrefl _ (Qlt_trans _ _ _ Hab Hba)).
  - rewrite Eba in Hab. exact (Qlt_irrefl _ Hab).
  - rewrite Eab in Hba. exact (Qlt_irrefl _ Hba).
  - lia.
Qed.

Lemma ranking_NoDup (data : DataFrame) (i : nat) :
  i < List.length data -> NoDup (ranking cosine_tfidf data i).
Proof.
  intros Hi.
  eapply Permutation_NoDup; [apply Permutation_sym, ranking_perm, Hi|].
  apply seq_NoDup.
Qed.

Lemma ranking_In (data : DataFrame) (i j : nat) :
  i < List.length data ->
  In j (ranking cosine_tfidf data i) <-> j < List.length data.
Proof.
  intros Hi. split; intros H.
  - eapply Permutation_in in H; [|apply ranking_perm, Hi].
    apply in_seq in H. lia.
  - eapply Permutation_in; [apply Permutation_sym, ranking_perm, Hi|].
    apply in_seq. lia.
Qed.

(** The ranking of a catalog with an anchor has a head, which outranks every
    other row. *)
Lemma ranking_head (data : DataFrame) (i : nat) :
  i < List.length data ->
  exists h rest,
    ranking cosine_tfidf data i = h :: rest
    /\ h < List.length data
    /\ ~ In h rest
    /\ List.length rest = List.length data - 1
    /\ forall j, In j rest -> outranks cosine_tfidf data i h j.
Proof.
  intros Hi.
  pose proof (ranking_length cosine_tfidf data i Hi) as Hlen.
  pose proof (ranking_NoDup data i Hi) as Hnd.
  pose proof (ranking_sorted cosine_tfidf data i) as Hs.
  pose proof (ranking_In data i) as Hin.
  destruct (ranking cosine_tfidf data i) as [|h rest]; simpl in Hlen; [lia|].
  exists h, rest. repeat split.
  - apply Hin; simpl; auto.
  - now inversion Hnd.
  - lia.
  - apply StronglySorted_inv in Hs. destruct Hs as [_ Hall].
    now rewrite Forall_forall in Hall.
Qed.

End RankingOrder.

(** ** Slices and rows *)

Lemma NoDup_firstn_of {A : Type} (n : nat) (l : list A) :
  NoDup l -> NoDup (firstn n l).
Proof.
  intros H. revert n. induction H as [|x l Hx Hl IH]; intros [|n]; simpl;
    try constructor; auto.
  intros Hin. apply Hx. eapply firstn_In, Hin.
Qed.

Lemma slice_1_NoDup {A : Type} (top_n : nat) (xs : list A) :
  NoDup xs -> NoDup (slice_1 top_n xs).
Proof.
  intros H. unfold slice_1. apply NoDup_firstn_of.
  destruct H; simpl; [constructor | assumption].
Qed.

Lemma slice_1_le {A : Type} (n m : nat) (xs : list A) :
  n <= m -> slice_1 n xs = firstn n (slice_1 m xs).
Proof.
  intros H. unfold slice_1. rewrite firstn_firstn.
  now rewrite Nat.min_l by assumption.
Qed.

Lemma iloc_firstn (data : DataFrame) (n : nat) (indices : list nat) :
  Forall (fun j => j < List.length data) indices ->
  iloc data (firstn n indices) = firstn n (iloc data indices).
Proof.
  intros H. revert n. induction H as [|j indices Hj _ IH]; intros [|n]; simpl;
    try reflexivity.
  destruct (nth_error data j) as [it|] eqn:E.
  - simpl. now rewrite IH.
  - apply nth_error_None in E. lia.
Qed.

Lemma iloc_In (data : DataFrame) (indices : list nat) (p : Product) :
  In p (iloc data indices) -> exists it, In it data /\ p = product_of it.
Proof.
  unfold iloc. intros H. apply in_flat_map in H. destruct H as (j & _ & Hp).
  destruct (nth_error data j) as [it|] eqn:E; simpl in Hp; [|contradiction].
  destruct Hp as [<-|[]]. exists it. split; [|reflexivity].
  eapply nth_error_In, E.
Qed.

Lemma append_nonempty (l s r : string) : s <> "" -> (l ++ s ++ r)%string <> "".
Proof.
  intros Hs H. destruct l; simpl in H; [|discriminate].
  destruct s; [congruence | discriminate].
Qed.

Section RecommenderExtras.

Context {engine : StrContains}.
Variable cosine_tfidf : list string -> string -> string -> Q.

(** X2: asking for fewer rows gives a prefix of what a larger [top_n] gives,
    for every argument. *)
Theorem recommendation_prefix
  (data : DataFrame) (item_name : PyArg) (n m : nat) :
  n <= m ->
  content_based_recommendation cosine_tfidf data item_name n
  = firstn n (content_based_recommendation cosine_tfidf data item_name m).
Proof.
  intros Hnm. unfold content_based_recommendation.
  destruct (negb (truth item_name) || negb (isinstance_str item_name));
    [now rewrite firstn_nil|].
  destruct item_name as [s|b]; [|now rewrite firstn_nil].
  destruct (item_index data (normalize s)) as [i|] eqn:Hi;
    [|now rewrite firstn_nil].
  apply first_index_lt in Hi.
  rewrite <- iloc_firstn by now apply top_similar_indices_in_range.
  f_equal. rewrite !top_similar_indices_ranking. now apply slice_1_le.
Qed.

(** X3: every row returned is the display record of a row of the catalog,
    and for a matching query the rows returned stand at pairwise distinct
    positions of the catalog: no row is recommended twice. *)
Theorem recommendation_rows_of_catalog
  (data : DataFrame) (item_name : PyArg) (top_n : nat) :
  (forall p,
     In p (content_based_recommendation cosine_tfidf data item_name top_n) ->
     exists it, In it data /\ p = product_of it)
  /\ (forall s i,
        item_name = PyString s -> s <> "" ->
        item_index data (normalize s) = Some i ->
        exists indices,
          NoDup indices
          /\ Forall2 (fun j p => exists it,
                        nth_error data j = Some it /\ p = product_of it)
                     indices
                     (content_based_recommendation cosine_tfidf data
                        item_name top_n)).
Proof.
  split.
  - intros p. unfold content_based_recommendation.
    destruct (negb (truth item_name) || negb (isinstance_str item_name));
      [intros []|].
    destruct item_name as [s|b]; [|intros []].
    destruct (item_index data (normalize s)); [apply iloc_In | intros []].
  - intros s i -> Hs Hi.
    pose proof (first_index_lt _ _ _ Hi) as Hlt.
    exists (top_similar_indices cosine_tfidf data i top_n). split.
    + rewrite top_similar_indices_ranking.
      apply slice_1_NoDup, ranking_NoDup, Hlt.
    + rewrite recommendation_of_string, Hi by assumption.
      apply iloc_rows, top_similar_indices_in_range, Hlt.
Qed.

(** X4: the anchor is among the positions returned only if some row
    outranks it, that is, scores higher, or as high from an earlier place in
    the catalog. *)
Theorem anchor_returned_only_if_outranked (data : DataFrame) (i top_n : nat) :
  i < List.length data ->
  In i (top_similar_indices cosine_tfidf data i top_n) ->
  exists j, j < List.length data /\ outranks cosine_tfidf data i j i.
Proof.
  intros Hi Hin. rewrite top_similar_indices_ranking in Hin.
  destruct (ranking_head cosine_tfidf data i Hi)
    as (h & rest & Hr & Hh & _ & _ & Hout).
  rewrite Hr in Hin. unfold slice_1 in Hin; simpl in Hin.
  apply firstn_In in Hin. exists h. auto.
Qed.

(** X5: when some row outranks the anchor and [top_n] covers the whole
    catalog, the anchor is among the positions returned. *)
Theorem outranked_anchor_is_returned (data : DataFrame) (i top_n : nat) :
  i < List.length data ->
  List.length data - 1 <= top_n ->
  (exists j, j < List.length data /\ outranks cosine_tfidf data i j i) ->
  In i (top_similar_indices cosine_tfidf data i top_n).
Proof.
  intros Hi Hn (j & Hj & Hji). rewrite top_similar_indices_ranking.
  destruct (ranking_head cosine_tfidf data i Hi)
    as (h & rest & Hr & Hh & Hnotin & Hlen & Hout).
  assert (Hi' : In i (h :: rest)) by (rewrite <- Hr; now apply ranking_In).
  assert (Hj' : In j (h :: rest)) by (rewrite <- Hr; now apply ranking_In).
  rewrite Hr. unfold slice_1; simpl. rewrite firstn_all2 by lia.
  destruct Hi' as [E|Hi']; [|exact Hi'].
  exfalso. subst h. destruct Hj' as [E|Hj'].
  - subst j. exact (outranks_irrefl cosine_tfidf data i i Hji).
  - exact (outranks_asym cosine_tfidf data i j i Hji (Hout j Hj')).
Qed.

(** X6: the case of the query and the whitespace around it are ignored: a
    query lower-cased and padded with whitespace gives the frame the query
    itself gives. *)
Theorem query_case_and_padding_ignored
  (data : DataFrame) (l s r : string) (top_n : nat) :
  s <> "" ->
  PyStr.all_chars PyStr.isspace l = true ->
  PyStr.all_chars PyStr.isspace r = true ->
  content_based_recommendation cosine_tfidf data
    (PyString (l ++ PyStr.lower s ++ r)) top_n
  = content_based_recommendation cosine_tfidf data (PyString s) top_n.
Proof.
  intros Hs Hl Hr.
  assert (Hls : PyStr.lower s <> "") by (intros E; apply Hs, lower_empty, E).
  rewrite !recommendation_of_string by (try apply append_nonempty; assumption).
  now rewrite normalize_padded, normalize_lower.
Qed.

End RecommenderExtras.

(** * Further properties of the evaluation harness *)

(** Step 4 of the harness, on its three inputs. *)
Definition scores (true_positives top_n : nat) (total_relevant : Z)
  : outcome PyValue :=
  p <- truediv (inject_Z (Z.of_nat true_positives))
               (inject_Z (Z.of_nat top_n)) ;;
  r <- (if (total_relevant >? 0)%Z
        then truediv (inject_Z (Z.of_nat true_positives))
                     (inject_Z total_relevant)
        else Returned 0%Q) ;;
  f <- (if Qltb 0 (p + r)
        then truediv (2 * (p * r)) (p * r)
        else Returned 0%Q) ;;
  Returned (PyDict {| precision := p; recall := r; f1 := f |}).

(** [true_positives] and [total_relevant] of the source, for the row
    [item_data] and the frame [recs]. *)
Definition true_positives
  (data : DataFrame) (item_data : Item) (recs : list Product) : nat :=
  inter_size (set_of (map product_Name recs))
             (relevant_items data (Category item_data)).

Definition total_relevant (data : DataFrame) (item_data : Item) : Z :=
  (Z.of_nat (List.length (relevant_items data (Category item_data))) - 1)%Z.

(** ** Arithmetic of the scores *)

Lemma Qeq_bool_inject_Z (z : Z) : Qeq_bool (inject_Z z) 0 = (z =? 0)%Z.
Proof. unfold Qeq_bool; simpl. now rewrite Z.mul_1_r. Qed.

Lemma inject_Z_pos (z : Z) : (0 < z)%Z -> (0 < inject_Z z)%Q.
Proof. intros H. unfold Qlt; simpl. lia. Qed.

Lemma truediv_pos (a b : Z) :
  (0 < b)%Z -> truediv (inject_Z a) (inject_Z b)
               = Returned (inject_Z a / inject_Z b)%Q.
Proof.
  intros Hb. unfold truediv. rewrite Qeq_bool_inject_Z.
  now rewrite (proj2 (Z.eqb_neq b 0)) by lia.
Qed.

Lemma quotient_pos (a b : Z) :
  (0 < a)%Z -> (0 < b)%Z -> (0 < inject_Z a / inject_Z b)%Q.
Proof.
  intros Ha Hb. apply Qlt_shift_div_l; [now apply inject_Z_pos|].
  rewrite Qmult_0_l. now apply inject_Z_pos.
Qed.

Lemma quotient_zero (b : Z) : (inject_Z 0 / inject_Z b == 0)%Q.
Proof. unfold Qdiv. apply Qmult_0_l. Qed.

Lemma quotient_le_1 (a b : Z) :
  (0 < b)%Z -> (a <= b)%Z -> (inject_Z a / inject_Z b <= 1)%Q.
Proof.
  intros Hb Hab. apply Qle_shift_div_r; [now apply inject_Z_pos|].
  rewrite Qmult_1_l. now rewrite <- Zle_Qle.
Qed.

Lemma quotient_nonneg (a b : Z) :
  (0 <= a)%Z -> (0 < b)%Z -> (0 <= inject_Z a / inject_Z b)%Q.
Proof.
  intros Ha Hb. apply Qle_shift_div_l; [now apply inject_Z_pos|].
  rewrite Qmult_0_l. change 0%Q with (inject_Z 0). now rewrite <- Zle_Qle.
Qed.

(** ** The three ways a scoring ends *)

Lemma scores_precision_recall (tp top_n : nat) (total : Z) (m : Metrics) :
  1 <= top_n ->
  scores tp top_n total = Returned (PyDict m) ->
  precision m = (inject_Z (Z.of_nat tp) / inject_Z (Z.of_nat top_n))%Q
  /\ recall m = (if (total >? 0)%Z
                 then inject_Z (Z.of_nat tp) / inject_Z total else 0)%Q.
Proof.
  intros Hn. unfold scores. rewrite truediv_pos by lia. simpl.
  destruct (total >? 0)%Z eqn:Ht.
  - rewrite truediv_pos by lia. simpl.
    destruct (Qltb 0 _); simpl;
      [destruct (truediv _ _); simpl|]; intros E; inversion E; auto.
  - simpl. destruct (Qltb 0 _); simpl;
      [destruct (truediv _ _); simpl|]; intros E; inversion E; auto.
Qed.

Lemma scores_shape (tp top_n : nat) (total : Z) :
  scores tp top_n total = Raised ZeroDivisionError
  \/ exists m, scores tp top_n total = Returned (PyDict m).
Proof.
  unfold scores.
  destruct (truediv _ _) as [p|[]]; simpl; [|auto].
  destruct (if (total >? 0)%Z then _ else _) as [r|[]]; simpl; [|auto].
  destruct (if Qltb 0 (p + r) then _ else _) as [f|[]]; simpl; eauto.
Qed.

Lemma scores_zero (top_n : nat) (total : Z) :
  1 <= top_n ->
  exists m, scores 0 top_n total = Returned (PyDict m)
            /\ (precision m == 0)%Q /\ (recall m == 0)%Q /\ f1 m = 0%Q.
Proof.
  intros Hn. unfold scores. change (Z.of_nat 0) with 0%Z.
  rewrite (truediv_pos 0 (Z.of_nat top_n)) by lia. cbn [bind].
  destruct (total >? 0)%Z eqn:Ht.
  - apply Z.gtb_lt in Ht. rewrite (truediv_pos 0 total) by lia. cbn [bind].
    rewrite (proj2 (Qltb_false 0 _)).
    + cbn [bind]. eexists; split; [reflexivity|].
      cbn [precision recall f1].
      split; [apply quotient_zero | split; [apply quotient_zero | reflexivity]].
    + rewrite !quotient_zero. rewrite Qplus_0_l. apply Qle_refl.
  - cbn [bind]. rewrite (proj2 (Qltb_false 0 _)).
    + cbn [bind]. eexists; split; [reflexivity|].
      cbn [precision recall f1].
      split; [apply quotient_zero | split; reflexivity].
    + rewrite quotient_zero. rewrite Qplus_0_l. apply Qle_refl.
Qed.

Lemma scores_two (tp top_n : nat) (total : Z) :
  1 <= top_n -> 0 < tp -> (0 < total)%Z ->
  exists m, scores tp top_n total = Returned (PyDict m)
            /\ precision m = (inject_Z (Z.of_nat tp) / inject_Z (Z.of_nat top_n))%Q
            /\ recall m = (inject_Z (Z.of_nat tp) / inject_Z total)%Q
            /\ (f1 m == 2)%Q.
Proof.
  intros Hn Htp Ht. unfold scores. rewrite truediv_pos by lia. simpl bind.
  rewrite (proj2 (Z.gtb_lt total 0)) by lia.
  rewrite truediv_pos by lia. simpl bind.
  set (p := (inject_Z (Z.of_nat tp) / inject_Z (Z.of_nat top_n))%Q).
  set (r := (inject_Z (Z.of_nat tp) / inject_Z total)%Q).
  assert (Hp : (0 < p)%Q) by (apply quotient_pos; lia).
  assert (Hr : (0 < r)%Q) by (apply quotient_pos; lia).
  assert (Hs : Qltb 0 (p + r) = true).
  { apply Qltb_true. rewrite <- (Qplus_0_l 0).
    apply Qplus_lt_le_compat; [exact Hp | apply Qlt_le_weak, Hr]. }
  rewrite Hs.
  assert (Hpr : ~ (p * r == 0)%Q).
  { intros E. apply (Qlt_irrefl 0). rewrite <- E at 2.
    rewrite <- (Qmult_0_l r). apply Qmult_lt_compat_r; assumption. }
  unfold truediv.
  destruct (Qeq_bool (p * r) 0) eqn:Hz;
    [apply Qeq_bool_iff in Hz; contradiction|].
  cbn [bind]. eexists; split; [reflexivity|]. cbn [precision recall f1].
  repeat split. apply Qdiv_mult_l, Hpr.
Qed.

Lemma scores_raise (tp top_n : nat) (total : Z) :
  1 <= top_n -> 0 < tp -> (total <= 0)%Z ->
  scores tp top_n total = Raised ZeroDivisionError.
Proof.
  intros Hn Htp Ht. unfold scores. rewrite truediv_pos by lia. cbn [bind].
  destruct (total >? 0)%Z eqn:E; [apply Z.gtb_lt in E; lia|]. cbn [bind].
  set (p := (inject_Z (Z.of_nat tp) / inject_Z (Z.of_nat top_n))%Q).
  assert (Hp : (0 < p)%Q) by (apply quotient_pos; lia).
  assert (Hs : Qltb 0 (p + 0) = true)
    by (apply Qltb_true; now rewrite Qplus_0_r).
  rewrite Hs. unfold truediv.
  assert (Hz : Qeq_bool (p * 0) 0 = true)
    by (apply Qeq_bool_iff, Qmult_0_r).
  now rewrite Hz.
Qed.

(** ** Sets of names *)

Lemma set_of_length (xs : list string) :
  List.length (set_of xs) <= List.length xs.
Proof.
  unfold set_of. induction xs as [|x xs IH]; simpl; [lia|].
  destruct (in_dec string_dec x xs); simpl; lia.
Qed.

Lemma inter_size_le (a b : list string) : inter_size a b <= List.length a.
Proof. unfold inter_size. apply filter_length_le. Qed.

Lemma inter_size_nil (a : list string) : inter_size a [] = 0.
Proof.
  unfold inter_size. induction a as [|x a IH]; simpl; [reflexivity | exact IH].
Qed.

Section EvaluationExtras.

Context {engine : StrContains}.
Variable cosine_tfidf : list string -> string -> string -> Q.

Lemma recommendation_length_le
  (data : DataFrame) (item_name : PyArg) (top_n : nat) :
  List.length (content_based_recommendation cosine_tfidf data item_name top_n)
  <= top_n.
Proof.
  unfold content_based_recommendation.
  destruct (negb (truth item_name) || negb (isinstance_str item_name));
    [simpl; lia|].
  destruct item_name as [s|b]; [|simpl; lia].
  destruct (item_index data (normalize s)) as [i|] eqn:Hi; [|simpl; lia].
  apply first_index_lt in Hi.
  rewrite iloc_length by now apply top_similar_indices_in_range.
  rewrite top_similar_indices_ranking, slice_1_length. apply Nat.le_min_l.
Qed.

Lemma evaluate_found
  (data : DataFrame) (item_name : string) (top_n : nat)
  (item_data : Item) (rest : list Item) :
  filter (fun it => (Name it =? item_name)%string) data = item_data :: rest ->
  evaluate_content_based_metrics cosine_tfidf data item_name top_n
  = match content_based_recommendation cosine_tfidf data
            (PyString item_name) top_n with
    | [] => Returned PyNone
    | recs => scores (true_positives data item_data recs) top_n
                     (total_relevant data item_data)
    end.
Proof.
  intros H. unfold evaluate_content_based_metrics. rewrite H.
  destruct (content_based_recommendation _ _ _ _); reflexivity.
Qed.

Lemma true_positives_le
  (data : DataFrame) (item_data : Item) (item_name : PyArg) (top_n : nat) :
  true_positives data item_data
    (content_based_recommendation cosine_tfidf data item_name top_n) <= top_n.
Proof.
  unfold true_positives.
  eapply Nat.le_trans; [apply inter_size_le|].
  eapply Nat.le_trans; [apply set_of_length|].
  rewrite length_map. apply recommendation_length_le.
Qed.

(** X7: the harness returns [True] exactly when no row has the name, and
    [None] exactly when a row has it and the recommender returns the empty
    frame for it. *)
Theorem true_and_none_signals
  (data : DataFrame) (item_name : string) (top_n : nat) :
  (evaluate_content_based_metrics cosine_tfidf data item_name top_n
   = Returned PyTrue
   <-> forall it, In it data -> Name it <> item_name)
  /\ (evaluate_content_based_metrics cosine_tfidf data item_name top_n
      = Returned PyNone
      <-> (exists it, In it data /\ Name it = item_name)
          /\ content_based_recommendation cosine_tfidf data
               (PyString item_name) top_n = []).
Proof.
  destruct (filter (fun it => (Name it =? item_name)%string) data)
    as [|item_data rest] eqn:Hf.
  - assert (Habsent : forall it, In it data -> Name it <> item_name).
    { intros it Hin E.
      assert (Hin' : In it (filter (fun it => (Name it =? item_name)%string) data))
        by (apply filter_In; split; [exact Hin | now apply String.eqb_eq]).
      rewrite Hf in Hin'. contradiction. }
    assert (He : evaluate_content_based_metrics cosine_tfidf data item_name top_n
                 = Returned PyTrue)
      by (unfold evaluate_content_based_metrics; now rewrite Hf).
    rewrite He. split; split; try discriminate; auto.
    intros [(it & Hin & E) _]. exfalso. exact (Habsent it Hin E).
  - assert (Hpresent : exists it, In it data /\ Name it = item_name).
    { exists item_data.
      assert (Hin : In item_data
                (filter (fun it => (Name it =? item_name)%string) data))
        by (rewrite Hf; left; reflexivity).
      apply filter_In in Hin. destruct Hin as [Hin E].
      split; [exact Hin | now apply String.eqb_eq]. }
    rewrite (evaluate_found data item_name top_n item_data rest Hf).
    destruct (content_based_recommendation cosine_tfidf data
                (PyString item_name) top_n) as [|rec recs] eqn:Hrecs.
    + split; split; try discriminate; auto.
      intros Habsent. destruct Hpresent as (it & Hin & E).
      exfalso. exact (Habsent it Hin E).
    + destruct (scores_shape (true_positives data item_data (rec :: recs))
                  top_n (total_relevant data item_data)) as [->|(m & ->)];
        split; split; try discriminate;
        try (intros [_ H]; discriminate);
        intros Habsent; destruct Hpresent as (it & Hin & E);
        exfalso; exact (Habsent it Hin E).
Qed.

(** X8: when the item is found and rows are recommended, the call ends in
    one of three ways, decided by [true_positives] and [total_relevant]:
    the all-zero record when no recommended name is relevant; a record whose
    F1 is 2 when some is and [total_relevant] is positive; and a
    [ZeroDivisionError] when some is and [total_relevant] is not positive. *)
Theorem scores_or_division_error
  (data : DataFrame) (item_name : string) (top_n : nat)
  (item_data : Item) (rest : list Item) :
  filter (fun it => (Name it =? item_name)%string) data = item_data :: rest ->
  content_based_recommendation cosine_tfidf data (PyString item_name) top_n
    <> [] ->
  let recs :=
    content_based_recommendation cosine_tfidf data (PyString item_name) top_n in
  let tp := true_positives data item_data recs in
  let total := total_relevant data item_data in
  (tp = 0 ->
   exists m,
     evaluate_content_based_metrics cosine_tfidf data item_name top_n
     = Returned (PyDict m)
     /\ (precision m == 0)%Q /\ (recall m == 0)%Q /\ f1 m = 0%Q)
  /\ (0 < tp -> (0 < total)%Z ->
      exists m,
        evaluate_content_based_metrics cosine_tfidf data item_name top_n
        = Returned (PyDict m)
        /\ precision m = (inject_Z (Z.of_nat tp) / inject_Z (Z.of_nat top_n))%Q
        /\ recall m = (inject_Z (Z.of_nat tp) / inject_Z total)%Q
        /\ (f1 m == 2)%Q)
  /\ (0 < tp -> (total <= 0)%Z ->
      evaluate_content_based_metrics cosine_tfidf data item_name top_n
      = Raised ZeroDivisionError).
Proof.
  intros Hf Hne. cbv zeta.
  pose proof (recommendation_length_le data (PyString item_name) top_n) as Hlen.
  rewrite (evaluate_found data item_name top_n item_data rest Hf).
  destruct (content_based_recommendation cosine_tfidf data
              (PyString item_name) top_n) as [|rec recs]; [contradiction|].
  simpl in Hlen. repeat split.
  - intros E. rewrite E. apply scores_zero. lia.
  - intros Htp Ht. apply scores_two; [lia | exact Htp | exact Ht].
  - intros Htp Ht. apply scores_raise; [lia | exact Htp | exact Ht].
Qed.

(** X9: whenever the harness returns a record, its precision lies between 0
    and 1 and its recall is not negative. *)
Theorem precision_within_unit_interval
  (data : DataFrame) (item_name : string) (top_n : nat) (m : Metrics) :
  evaluate_content_based_metrics cosine_tfidf data item_name top_n
  = Returned (PyDict m) ->
  (0 <= precision m)%Q /\ (precision m <= 1)%Q /\ (0 <= recall m)%Q.
Proof.
  destruct (filter (fun it => (Name it =? item_name)%string) data)
    as [|item_data rest] eqn:Hf.
  - unfold evaluate_content_based_metrics. rewrite Hf. discriminate.
  - rewrite (evaluate_found data item_name top_n item_data rest Hf).
    pose proof (recommendation_length_le data (PyString item_name) top_n) as Hlen.
    pose proof (true_positives_le data item_data (PyString item_name) top_n) as Htp.
    destruct (content_based_recommendation cosine_tfidf data
                (PyString item_name) top_n) as [|rec recs]; [discriminate|].
    simpl in Hlen. intros Hs.
    apply scores_precision_recall in Hs; [|lia]. destruct Hs as [-> ->].
    split; [apply quotient_nonneg; lia|].
    split; [apply quotient_le_1; lia|].
    destruct (total_relevant data item_data >? 0)%Z eqn:Ht.
    + apply Z.gtb_lt in Ht. apply quotient_nonneg; lia.
    + apply Qle_refl.
Qed.

(** X10: an item whose category cell is missing has no relevant item: when
    rows are recommended for it, the record returned is all zero and nothing
    is raised. *)
Theorem missing_category_scores_zero
  (data : DataFrame) (item_name : string) (top_n : nat)
  (item_data : Item) (rest : list Item) :
  filter (fun it => (Name it =? item_name)%string) data = item_data :: rest ->
  Category item_data = None ->
  content_based_recommendation cosine_tfidf data (PyString item_name) top_n
    <> [] ->
  relevant_items data (Category item_data) = []
  /\ exists m,
       evaluate_content_based_metrics cosine_tfidf data item_name top_n
       = Returned (PyDict m)
       /\ (precision m == 0)%Q /\ (recall m == 0)%Q /\ f1 m = 0%Q.
Proof.
  intros Hf Hc Hne.
  assert (Hrel : relevant_items data (Category item_data) = []).
  { rewrite Hc. unfold relevant_items; simpl.
    assert (Hnone : forall col : Item -> option string,
              filter (fun it => cell_eq (col it) None) data = []).
    { intros col. clear. induction data as [|it d IH]; simpl; [reflexivity|].
      unfold cell_eq at 1. destruct (col it); exact IH. }
    rewrite !Hnone. reflexivity. }
  split; [exact Hrel|].
  pose proof (recommendation_length_le data (PyString item_name) top_n) as Hlen.
  rewrite (evaluate_found data item_name top_n item_data rest Hf).
  destruct (content_based_recommendation cosine_tfidf data
              (PyString item_name) top_n) as [|rec recs]; [contradiction|].
  simpl in Hlen. unfold true_positives. rewrite Hrel, inter_size_nil.
  apply scores_zero. lia.
Qed.

End EvaluationExtras.

(** * The application: categories, cards and search history ([app.py]) *)

Module App.

(** ** Category normalisation *)

(** The dictionary, in the order it is written, which is the order
    [.items()] walks it. *)
Definition CATEGORY_MAPPING : list (string * list string) :=
  [ ("Beauty", ["beauty"; "cosmetic"; "makeup"; "skin"; "hair"; "cream";
                "lotion"; "shampoo"]);
    ("Electronics", ["electronic"; "mobile"; "laptop"; "charger"; "camera";
                     "headphone"; "earphone"]);
    ("Fashion", ["fashion"; "clothing"; "dress"; "shirt"; "jeans"; "shoes";
                 "footwear"]);
    ("Home & Kitchen", ["home"; "kitchen"; "cookware"; "utensil"; "furniture";
                        "decor"]);
    ("Health", ["health"; "medicine"; "supplement"; "vitamin"; "wellness";
                "medical"]);
    ("Sports & Fitness", ["sports"; "fitness"; "gym"; "exercise"; "yoga"]);
    ("Books & Stationery", ["book"; "novel"; "study"; "stationery"; "pen";
                            "notebook"]);
    ("Others", []) ].

(** [any(kw in raw_category for kw in keywords)]: the inner loop. *)
Definition has_keyword (keywords : list string) (raw_category : string) : bool :=
  existsb (fun kw => PyStr.str_in kw raw_category) keywords.

(** The two loops: the first entry one of whose keywords occurs. *)
Fixpoint first_category
  (mapping : list (string * list string)) (raw_category : string) : string :=
  match mapping with
  | [] => "Others"
  | (main_cat, keywords) :: rest =>
      if has_keyword keywords raw_category then main_cat
      else first_category rest raw_category
  end.

Definition map_to_main_category (raw_category : PyArg) : string :=
  if negb (isinstance_str raw_category) then "Others"
  else
    match raw_category with
    | PyOther _ => "Others"
    | PyString s => first_category CATEGORY_MAPPING (PyStr.lower s)
    end.

(** A cell of the [Category] column as [apply] hands it over: a string, or
    NaN. *)
Definition cell (c : option string) : PyArg :=
  match c with
  | Some s => PyString s
  | None => PyOther true
  end.

(** The column [data["MainCategory"]] on one row. *)
Definition MainCategory (it : Item) : string :=
  map_to_main_category (cell (Category it)).

(** [filter_by_category(df)], [selected_category] being the value held in
    the session state.  The rows of the frame returned, in order. *)
Definition filter_by_category (selected_category : string) (df : DataFrame)
  : DataFrame :=
  if (selected_category =? "All")%string then df
  else filter (fun it => (MainCategory it =? selected_category)%string) df.

(** ** Product cards *)

Definition placeholder_img : string :=
  "https://via.placeholder.com/300x300.png?text=No+Image".

(** [final_img] of [display_products]. *)
Definition final_img (img_url : option string) : string :=
  match img_url with
  | Some u => if PyStr.startswith "http" u then u else placeholder_img
  | None => placeholder_img
  end.

(** [s[:n]] *)
Fixpoint str_take (n : nat) (s : string) : string :=
  match n, s with
  | 0, _ => EmptyString
  | S _, EmptyString => EmptyString
  | S n', String c s' => String c (str_take n' s')
  end.

(** [display_name] of [display_products]. *)
Definition display_name (name : string) : string :=
  if 55 <? String.length name then (str_take 55 name ++ "...")%string
  else name.

(** [recs_with_details.head(9)]: the rows that get a card. *)
Definition shown (recs_with_details : list Product) : list Product :=
  firstn 9 recs_with_details.

(** ** Search history *)

(** One run of the script on the history kept in the session state: the
    search is appended when the button was pressed and the text is not
    blank. *)
Definition record_search
  (get_rec : bool) (product_search : string) (search_history : list string)
  : list string :=
  if get_rec && negb (PyStr.strip product_search =? "")%string
  then search_history ++ [product_search]
  else search_history.

(** [reversed(search_history[-5:])]: what the panel lists. *)
Definition recent_activity (search_history : list string) : list string :=
  rev (skipn (List.length search_history - 5) search_history).

End App.

(** ** Categories *)

Lemma first_category_range
  (mapping : list (string * list string)) (raw : string) :
  In (App.first_category mapping raw) (map fst mapping)
  \/ App.first_category mapping raw = "Others".
Proof.
  induction mapping as [|[c kws] mapping IH]; simpl; [auto|].
  destruct (App.has_keyword kws raw); [auto|].
  destruct IH; auto.
Qed.

Lemma first_category_others
  (mapping : list (string * list string)) (raw : string) :
  Forall (fun e => fst e <> "Others" \/ snd e = []) mapping ->
  App.first_category mapping raw = "Others"
  <-> forall e, In e mapping -> App.has_keyword (snd e) raw = false.
Proof.
  induction 1 as [|[c kws] mapping Hc _ IH]; simpl.
  - split; [intros _ ? [] | reflexivity].
  - destruct (App.has_keyword kws raw) eqn:Hk.
    + split.
      * intros ->. destruct Hc as [Hc|Hc]; [contradiction|].
        simpl in Hc. subst kws. discriminate.
      * intros H. specialize (H (c, kws) (or_introl eq_refl)).
        simpl in H. congruence.
    + rewrite IH. split.
      * intros H e [<-|He]; [exact Hk | now apply H].
      * intros H e He. apply H. now right.
Qed.

Lemma first_category_first_match
  (before after : list (string * list string)) (c : string)
  (kws : list string) (raw : string) :
  (forall e, In e before -> App.has_keyword (snd e) raw = false) ->
  App.has_keyword kws raw = true ->
  App.first_category (before ++ (c, kws) :: after)%list raw = c.
Proof.
  induction before as [|[c' kws'] before IH]; intros Hb Hk; simpl.
  - now rewrite Hk.
  - pose proof (Hb (c', kws') (or_introl eq_refl)) as Hc'. simpl in Hc'.
    rewrite Hc'. apply IH; [|exact Hk]. intros e He. apply Hb. now right.
Qed.

Lemma has_keyword_false (kws : list string) (raw : string) :
  App.has_keyword kws raw = false
  <-> forall kw, In kw kws -> PyStr.str_in kw raw = false.
Proof.
  unfold App.has_keyword. induction kws as [|k kws IH]; simpl.
  - split; [intros _ ? [] | reflexivity].
  - rewrite orb_false_iff, IH. split.
    + intros [Hk H] kw [<-|Hkw]; auto.
    + intros H. split; [apply H; auto | intros kw Hkw; apply H; auto].
Qed.

(** X11: [map_to_main_category] always answers with one of the eight keys
    of [CATEGORY_MAPPING], and answering twice changes nothing: a main
    category is mapped to itself.  Case is ignored. *)
Theorem main_category_is_a_key_and_stable (raw_category : PyArg) :
  In (App.map_to_main_category raw_category) (map fst App.CATEGORY_MAPPING)
  /\ App.map_to_main_category
       (PyString (App.map_to_main_category raw_category))
     = App.map_to_main_category raw_category
  /\ forall s, App.map_to_main_category (PyString (PyStr.lower s))
               = App.map_to_main_category (PyString s).
Proof.
  assert (Hin : In (App.map_to_main_category raw_category)
                   (map fst App.CATEGORY_MAPPING)).
  { unfold App.map_to_main_category.
    destruct raw_category as [s|b]; simpl negb; cbv iota.
    - destruct (first_category_range App.CATEGORY_MAPPING (PyStr.lower s))
        as [H|H]; [exact H|].
      cbn [negb isinstance_str]. rewrite H. simpl; tauto.
    - simpl; tauto. }
  split; [exact Hin|]. split.
  - simpl in Hin.
    repeat (destruct Hin as [Hin|Hin]; [rewrite <- Hin; reflexivity|]).
    contradiction.
  - intros s. unfold App.map_to_main_category; simpl. now rewrite lower_idem.
Qed.

(** X12: for a string, the answer is [Others] exactly when no keyword of any
    category occurs in the lower-cased text; and a category is the answer as
    soon as one of its keywords occurs and no keyword of a category written
    before it does. *)
Theorem main_category_first_keyword_wins (s : string) :
  (App.map_to_main_category (PyString s) = "Others"
   <-> forall c kws kw,
         In (c, kws) App.CATEGORY_MAPPING -> In kw kws ->
         PyStr.str_in kw (PyStr.lower s) = false)
  /\ forall (before after : list (string * list string)) c kws,
       App.CATEGORY_MAPPING = (before ++ (c, kws) :: after)%list ->
       (exists kw, In kw kws /\ PyStr.str_in kw (PyStr.lower s) = true) ->
       (forall c' kws' kw,
          In (c', kws') before -> In kw kws' ->
          PyStr.str_in kw (PyStr.lower s) = false) ->
       App.map_to_main_category (PyString s) = c.
Proof.
  unfold App.map_to_main_category; simpl negb; cbv iota. split.
  - rewrite first_category_others.
    + split.
      * intros H c kws kw Hin Hkw.
        exact (proj1 (has_keyword_false kws _) (H (c, kws) Hin) kw Hkw).
      * intros H [c kws] Hin. apply has_keyword_false.
        intros kw Hkw. exact (H c kws kw Hin Hkw).
    + unfold App.CATEGORY_MAPPING.
      repeat (apply Forall_cons;
              [first [left; discriminate | right; reflexivity]|]).
      apply Forall_nil.
  - intros before after c kws -> (kw & Hkw & Hocc) Hbefore.
    apply first_category_first_match.
    + intros [c' kws'] Hin. apply has_keyword_false.
      intros kw' Hkw'. exact (Hbefore c' kws' kw' Hin Hkw').
    + destruct (App.has_keyword kws (PyStr.lower s)) eqn:E; [reflexivity|].
      rewrite (proj1 (has_keyword_false kws _) E kw Hkw) in Hocc.
      discriminate.
Qed.

(** ** Category views *)

Lemma list_sum_map_add {A : Type} (f g : A -> nat) (l : list A) :
  list_sum (map (fun x => f x + g x) l)
  = list_sum (map f l) + list_sum (map g l).
Proof.
  induction l as [|x l IH]; simpl; [reflexivity|]. rewrite IH. lia.
Qed.

Lemma list_sum_indicator (keys : list string) (x : string) :
  NoDup keys -> In x keys ->
  list_sum (map (fun c => if (x =? c)%string then 1 else 0) keys) = 1.
Proof.
  induction 1 as [|k keys Hk Hnd IH]; intros Hin; [contradiction|].
  simpl. destruct (String.eqb_spec x k) as [->|Hne].
  - assert (Hz : list_sum (map (fun c => if (k =? c)%string then 1 else 0) keys)
                 = 0).
    { clear IH Hin Hnd. induction keys as [|c keys IH]; simpl; [reflexivity|].
      destruct (String.eqb_spec k c) as [->|_].
      - exfalso. apply Hk. now left.
      - apply IH. intros H. apply Hk. now right. }
    rewrite Hz. reflexivity.
  - destruct Hin as [->|Hin]; [contradiction|]. now apply IH.
Qed.

Lemma filter_views_partition
  (keys : list string) (label : Item -> string) (df : DataFrame) :
  NoDup keys ->
  (forall it, In (label it) keys) ->
  list_sum (map (fun c => List.length
                            (filter (fun it => (label it =? c)%string) df))
                keys)
  = List.length df.
Proof.
  intros Hnd Hkeys. induction df as [|it df IH]; simpl.
  - clear. induction keys as [|k keys IHk]; simpl; auto.
  - transitivity
      (list_sum
         (map (fun c => (if (label it =? c)%string then 1 else 0)
                        + List.length
                            (filter (fun it' => (label it' =? c)%string) df))
              keys)).
    + f_equal. apply map_ext. intros c. simpl.
      destruct (label it =? c)%string; reflexivity.
    + rewrite list_sum_map_add, IH, list_sum_indicator by auto. reflexivity.
Qed.

Lemma main_category_in_keys (it : Item) :
  In (App.MainCategory it) (map fst App.CATEGORY_MAPPING).
Proof.
  unfold App.MainCategory, App.map_to_main_category.
  destruct (Category it) as [s|]; simpl App.cell; cbn [negb isinstance_str];
    cbv iota; [|simpl; tauto].
  destruct (first_category_range App.CATEGORY_MAPPING (PyStr.lower s))
    as [H|H]; [exact H|]. rewrite H. simpl; tauto.
Qed.

(** X13: [All] shows the whole frame; any other selection shows exactly the
    rows whose main category it is; and the views of the eight main
    categories partition the frame: their sizes add up to its size. *)
Theorem category_views_partition_catalog (df : DataFrame) :
  App.filter_by_category "All" df = df
  /\ (forall c it, c <> "All" ->
        In it (App.filter_by_category c df)
        <-> In it df /\ App.MainCategory it = c)
  /\ list_sum (map (fun c => List.length (App.filter_by_category c df))
                   (map fst App.CATEGORY_MAPPING))
     = List.length df.
Proof.
  split; [reflexivity|]. split.
  - intros c it Hc. unfold App.filter_by_category.
    rewrite (proj2 (String.eqb_neq c "All") Hc), filter_In.
    now rewrite String.eqb_eq.
  - transitivity
      (list_sum
         (map (fun c => List.length
                          (filter (fun it => (App.MainCategory it =? c)%string)
                                  df))
              (map fst App.CATEGORY_MAPPING))).
    + apply (f_equal list_sum). apply map_ext_in. intros c Hc.
      unfold App.filter_by_category. simpl in Hc.
      repeat (destruct Hc as [<-|Hc]; [reflexivity|]). contradiction.
    + apply filter_views_partition; [|apply main_category_in_keys].
      simpl. repeat (constructor; [simpl; intuition discriminate|]).
      constructor.
Qed.

(** ** Cards *)

Lemma string_length_app (a b : string) :
  String.length (a ++ b) = String.length a + String.length b.
Proof. induction a as [|c a IH]; simpl; [reflexivity | now rewrite IH]. Qed.

Lemma str_take_length (n : nat) (s : string) :
  String.length (App.str_take n s) = Nat.min n (String.length s).
Proof.
  revert s. induction n as [|n IH]; intros [|c s]; simpl; auto.
Qed.

Lemma str_take_app (n : nat) (a b : string) :
  n <= String.length a -> App.str_take n (a ++ b) = App.str_take n a.
Proof.
  revert a. induction n as [|n IH]; intros [|c a] H; simpl in *;
    try reflexivity; try lia.
  rewrite IH by lia. reflexivity.
Qed.

Lemma str_take_idem (n : nat) (s : string) :
  App.str_take n (App.str_take n s) = App.str_take n s.
Proof.
  revert s. induction n as [|n IH]; intros [|c s]; simpl; auto.
  now rewrite IH.
Qed.

(** X14: at most nine rows get a card; the image shown always starts with
    [http], the placeholder standing in for a missing cell or for any other
    text; and the title is the name when it has at most 55 characters,
    otherwise 58 characters that begin with the first 55 of the name. *)
Theorem card_image_and_title (recs_with_details : list Product) :
  List.length (App.shown recs_with_details)
  = Nat.min 9 (List.length recs_with_details)
  /\ (forall img_url, PyStr.startswith "http" (App.final_img img_url) = true)
  /\ (forall name,
        String.length (App.display_name name)
        = if 55 <? String.length name then 58 else String.length name)
  /\ (forall name,
        App.str_take 55 (App.display_name name) = App.str_take 55 name).
Proof.
  split; [apply length_firstn|]. split; [|split].
  - intros [u|]; unfold App.final_img; [|reflexivity].
    destruct (PyStr.startswith "http" u) eqn:E; [exact E | reflexivity].
  - intros name. unfold App.display_name.
    destruct (55 <? String.length name) eqn:E; [|reflexivity].
    apply Nat.ltb_lt in E.
    rewrite string_length_app, str_take_length. simpl String.length. lia.
  - intros name. unfold App.display_name.
    destruct (55 <? String.length name) eqn:E; [|reflexivity].
    apply Nat.ltb_lt in E.
    rewrite str_take_app by (rewrite str_take_length; lia).
    apply str_take_idem.
Qed.

(** ** Search history *)

Definition blank (q : string) : bool := (PyStr.strip q =? "")%string.

(** The history after a sequence of runs, each with the state of the button
    and the text of the search box. *)
Definition history_after
  (runs : list (bool * string)) (search_history : list string) : list string :=
  fold_left (fun h r => App.record_search (fst r) (snd r) h) runs search_history.

Lemma history_after_app (runs : list (bool * string)) (h : list string) :
  history_after runs h
  = (h ++ map snd (filter (fun r => fst r && negb (blank (snd r))) runs))%list.
Proof.
  revert h. induction runs as [|[g q] runs IH]; intros h; simpl.
  - now rewrite app_nil_r.
  - unfold history_after in *; simpl. rewrite IH.
    unfold App.record_search, blank.
    destruct (g && negb (PyStr.strip q =? "")%string); simpl;
      [now rewrite <- app_assoc | reflexivity].
Qed.

(** X15: the history only grows, by the searches made with the button
    pressed and a text that is not blank, in the order they were made; so,
    started empty, it never holds a blank entry. *)
Theorem history_holds_the_non_blank_searches
  (runs : list (bool * string)) (search_history : list string) :
  history_after runs search_history
  = (search_history
     ++ map snd (filter (fun r => fst r && negb (blank (snd r))) runs))%list
  /\ Forall (fun q => PyStr.strip q <> "") (history_after runs []).
Proof.
  split; [apply history_after_app|].
  rewrite history_after_app. simpl. rewrite Forall_forall. intros q Hq.
  apply in_map_iff in Hq. destruct Hq as ([g q'] & <- & Hin).
  apply filter_In in Hin. destruct Hin as [_ Hin]. simpl in *.
  apply andb_prop in Hin. destruct Hin as [_ Hin].
  apply negb_true_iff in Hin. unfold blank in Hin.
  now apply String.eqb_neq.
Qed.

(** X16: the panel lists the last five searches at most, newest first: it
    is the first five entries of the reversed history, and right after a
    search that is not blank was recorded, that search heads it. *)
Theorem recent_activity_newest_first (search_history : list string) :
  App.recent_activity search_history = firstn 5 (rev search_history)
  /\ List.length (App.recent_activity search_history)
     = Nat.min 5 (List.length search_history)
  /\ forall q, PyStr.strip q <> "" ->
       hd_error (App.recent_activity
                   (App.record_search true q search_history)) = Some q.
Proof.
  assert (He : forall h, App.recent_activity h = firstn 5 (rev h))
    by (intros h; unfold App.recent_activity; now rewrite firstn_rev).
  split; [apply He|]. split.
  - rewrite He, length_firstn, length_rev. reflexivity.
  - intros q Hq. rewrite He. unfold App.record_search.
    rewrite (proj2 (String.eqb_neq _ _) Hq). simpl.
    now rewrite rev_unit.
Qed.

(** * The ranking is determined by the scores *)

Section RankingUnique.

Variable cosine_tfidf : list string -> string -> string -> Q.

Lemma sorted_listing_unique (data : DataFrame) (i : nat) (l1 l2 : list nat) :
  Permutation l1 l2 ->
  StronglySorted (outranks cosine_tfidf data i) l1 ->
  StronglySorted (outranks cosine_tfidf data i) l2 ->
  l1 = l2.
Proof.
  revert l2. induction l1 as [|a l1 IH]; intros l2 Hp H1 H2.
  - apply Permutation_nil in Hp. now subst.
  - destruct l2 as [|b l2];
      [apply Permutation_sym, Permutation_nil in Hp; discriminate|].
    apply StronglySorted_inv in H1. destruct H1 as [H1 Ha].
    apply StronglySorted_inv in H2. destruct H2 as [H2 Hb].
    rewrite Forall_forall in Ha, Hb.
    assert (Hab : a = b).
    { assert (Hain : In a (b :: l2))
        by (eapply Permutation_in; [exact Hp | now left]).
      assert (Hbin : In b (a :: l1))
        by (eapply Permutation_in; [apply Permutation_sym, Hp | now left]).
      destruct Hain as [E|Hain]; [now symmetry|].
      destruct Hbin as [E|Hbin]; [exact E|].
      exfalso.
      exact (outranks_asym cosine_tfidf data i a b (Ha b Hbin) (Hb a Hain)). }
    subst b. f_equal. apply IH; [|assumption|assumption].
    eapply Permutation_cons_inv, Hp.
Qed.

(** X17: the ranking lists every position of the catalog once, each row
    before the rows it outranks, and it is the only list that does; the
    positions returned are its entries 1 to [top_n]. *)
Theorem ranking_is_the_sorted_listing (data : DataFrame) (i top_n : nat) :
  i < List.length data ->
  Permutation (ranking cosine_tfidf data i) (seq 0 (List.length data))
  /\ StronglySorted (outranks cosine_tfidf data i) (ranking cosine_tfidf data i)
  /\ (forall l,
        Permutation l (seq 0 (List.length data)) ->
        StronglySorted (outranks cosine_tfidf data i) l ->
        l = ranking cosine_tfidf data i)
  /\ top_similar_indices cosine_tfidf data i top_n
     = firstn top_n (skipn 1 (ranking cosine_tfidf data i)).
Proof.
  intros Hi. split; [now apply ranking_perm|].
  split; [apply ranking_sorted|]. split.
  - intros l Hp Hs. apply (sorted_listing_unique data i); [|exact Hs|].
    + eapply perm_trans; [exact Hp | apply Permutation_sym, ranking_perm, Hi].
    + apply ranking_sorted.
  - apply top_similar_indices_ranking.
Qed.

End RankingUnique.

(** X18: for an item found in the catalog whose category is a non-empty
    string, [relevant_items] holds the item's own name, so that
    [total_relevant] is not negative; and it holds no name twice. *)
Theorem own_name_is_relevant
  (data : DataFrame) (item_name : string) (item_data : Item)
  (rest : list Item) (c : string) :
  filter (fun it => (Name it =? item_name)%string) data = item_data :: rest ->
  Category item_data = Some c ->
  c <> "" ->
  In item_name (relevant_items data (Category item_data))
  /\ NoDup (relevant_items data (Category item_data))
  /\ (0 <= total_relevant data item_data)%Z.
Proof.
  intros Hf Hc Hne.
  assert (Hin : In item_data
            (filter (fun it => (Name it =? item_name)%string) data))
    by (rewrite Hf; now left).
  apply filter_In in Hin. destruct Hin as [Hin Hname].
  apply String.eqb_eq in Hname.
  assert (Hrel : In item_name (relevant_items data (Category item_data))).
  { unfold relevant_items, set_of. apply nodup_In, in_or_app. left.
    rewrite Hc at 1. simpl truthy.
    rewrite (proj2 (String.eqb_neq c "") Hne). simpl negb. cbv iota.
    apply in_map_iff. exists item_data. split; [exact Hname|].
    apply filter_In. split; [exact Hin|].
    rewrite Hc. simpl. apply String.eqb_refl. }
  split; [exact Hrel|]. split; [apply NoDup_nodup|].
  unfold total_relevant.
  destruct (relevant_items data (Category item_data)); [contradiction|].
  simpl List.length. lia.
Qed.

(** * The further properties at sample inputs *)

(** A catalog whose first row has no category. *)
Definition teas : DataFrame :=
  [ {| Name := "Loose Tea"; Brand := Some "Leaf"; Rating := None;
       ReviewCount := None; ImageURL := None; Tags := Some "green tea";
       Category := None |};
    Sample.row "Green Tea" "Leaf" "Drinks" "green tea" ].

(** One row asked for against ten. *)
Lemma one_of_ten_on_serums :
  1 <= 10
  /\ content_based_recommendation (engine := literal_engine)
       Sample.same_tags Sample.serums (PyString "alpha") 1
     = firstn 1 (content_based_recommendation (engine := literal_engine)
                   Sample.same_tags Sample.serums (PyString "alpha") 10).
Proof.
  assert (H : 1 <= 10) by lia.
  split; [exact H|].
  exact (recommendation_prefix (engine := literal_engine)
           Sample.same_tags Sample.serums (PyString "alpha") 1 10 H).
Defined.

(** The second serum is returned for itself: the first outranks it. *)
Lemma second_serum_is_outranked :
  1 < List.length Sample.serums
  /\ In 1 (top_similar_indices Sample.same_tags Sample.serums 1 10)
  /\ exists j, j < List.length Sample.serums
               /\ outranks Sample.same_tags Sample.serums 1 j 1.
Proof.
  assert (H1 : 1 < List.length Sample.serums) by (simpl; lia).
  assert (H2 : In 1 (top_similar_indices Sample.same_tags Sample.serums 1 10))
    by (left; reflexivity).
  split; [exact H1 | split; [exact H2|]].
  exact (anchor_returned_only_if_outranked Sample.same_tags Sample.serums
           1 10 H1 H2).
Defined.

Lemma outranked_second_serum_is_returned :
  1 < List.length Sample.serums
  /\ List.length Sample.serums - 1 <= 10
  /\ (exists j, j < List.length Sample.serums
                /\ outranks Sample.same_tags Sample.serums 1 j 1)
  /\ In 1 (top_similar_indices Sample.same_tags Sample.serums 1 10).
Proof.
  assert (H1 : 1 < List.length Sample.serums) by (simpl; lia).
  assert (H2 : List.length Sample.serums - 1 <= 10) by (simpl; lia).
  assert (H3 : exists j, j < List.length Sample.serums
                         /\ outranks Sample.same_tags Sample.serums 1 j 1).
  { exists 0. split; [simpl; lia|]. right. split; [reflexivity | lia]. }
  split; [exact H1 | split; [exact H2 | split; [exact H3|]]].
  exact (outranked_anchor_is_returned Sample.same_tags Sample.serums
           1 10 H1 H2 H3).
Defined.

(** [Rose] in lower case between blanks. *)
Lemma padded_rose_on_creams :
  "Rose" <> ""
  /\ PyStr.all_chars PyStr.isspace " " = true
  /\ PyStr.all_chars PyStr.isspace "  " = true
  /\ content_based_recommendation (engine := literal_engine)
       Sample.same_tags Sample.creams (PyString " rose  ") 10
     = content_based_recommendation (engine := literal_engine)
         Sample.same_tags Sample.creams (PyString "Rose") 10.
Proof.
  assert (H1 : "Rose" <> "") by discriminate.
  assert (H2 : PyStr.all_chars PyStr.isspace " " = true) by reflexivity.
  assert (H3 : PyStr.all_chars PyStr.isspace "  " = true) by reflexivity.
  split; [exact H1 | split; [exact H2 | split; [exact H3|]]].
  exact (query_case_and_padding_ignored (engine := literal_engine)
           Sample.same_tags Sample.creams " " "Rose" "  " 10 H1 H2 H3).
Defined.

(** The first cream is found and one cream is recommended for it. *)
Lemma rose_cream_scores :
  filter (fun it => (Name it =? "Rose Cream")%string) Sample.creams
  = [Sample.row "Rose Cream" "Flora" "Beauty" "face cream moisturizer"]
  /\ content_based_recommendation (engine := literal_engine)
       Sample.same_tags Sample.creams (PyString "Rose Cream") 10 <> []
  /\ exists m,
       evaluate_content_based_metrics (engine := literal_engine)
         Sample.same_tags Sample.creams "Rose Cream" 10
       = Returned (PyDict m)
       /\ (f1 m == 2)%Q.
Proof.
  assert (H1 : filter (fun it => (Name it =? "Rose Cream")%string) Sample.creams
               = [Sample.row "Rose Cream" "Flora" "Beauty"
                    "face cream moisturizer"]) by reflexivity.
  assert (H2 : content_based_recommendation (engine := literal_engine)
                 Sample.same_tags Sample.creams (PyString "Rose Cream") 10
               <> []) by discriminate.
  split; [exact H1 | split; [exact H2|]].
  destruct (scores_or_division_error (engine := literal_engine)
              Sample.same_tags Sample.creams "Rose Cream" 10 _ _ H1 H2)
    as (_ & Htwo & _).
  destruct Htwo as (m & Hm & _ & _ & Hf);
    [vm_compute; lia | reflexivity|].
  exists m. split; [exact Hm | exact Hf].
Defined.

Lemma rose_cream_precision :
  exists m,
    evaluate_content_based_metrics (engine := literal_engine)
      Sample.same_tags Sample.creams "Rose Cream" 10
    = Returned (PyDict m)
    /\ (0 <= precision m)%Q /\ (precision m <= 1)%Q /\ (0 <= recall m)%Q.
Proof.
  eexists. split; [vm_compute; reflexivity|].
  apply (precision_within_unit_interval (engine := literal_engine)
           Sample.same_tags Sample.creams "Rose Cream" 10).
  vm_compute; reflexivity.
Defined.

(** The tea without a category. *)
Lemma loose_tea_scores_zero :
  Category (hd (Sample.row "" "" "" "") teas) = None
  /\ content_based_recommendation (engine := literal_engine)
       Sample.same_tags teas (PyString "Loose Tea") 10 <> []
  /\ exists m,
       evaluate_content_based_metrics (engine := literal_engine)
         Sample.same_tags teas "Loose Tea" 10
       = Returned (PyDict m)
       /\ f1 m = 0%Q.
Proof.
  assert (H1 : filter (fun it => (Name it =? "Loose Tea")%string) teas
               = [hd (Sample.row "" "" "" "") teas]) by reflexivity.
  assert (H2 : Category (hd (Sample.row "" "" "" "") teas) = None)
    by reflexivity.
  assert (H3 : content_based_recommendation (engine := literal_engine)
                 Sample.same_tags teas (PyString "Loose Tea") 10 <> [])
    by discriminate.
  split; [exact H2 | split; [exact H3|]].
  destruct (missing_category_scores_zero (engine := literal_engine)
              Sample.same_tags teas "Loose Tea" 10 _ _ H1 H2 H3)
    as (_ & m & Hm & _ & _ & Hf).
  exists m. split; [exact Hm | exact Hf].
Defined.

(** The ranking of the two serums around the second. *)
Lemma serums_ranking :
  1 < List.length Sample.serums
  /\ Permutation (ranking Sample.same_tags Sample.serums 1)
       (seq 0 (List.length Sample.serums)).
Proof.
  assert (H : 1 < List.length Sample.serums) by (simpl; lia).
  split; [exact H|].
  exact (proj1 (ranking_is_the_sorted_listing Sample.same_tags Sample.serums
                  1 10 H)).
Defined.

(** The first cream is of the category [Beauty]. *)
Lemma rose_cream_is_relevant :
  Category (Sample.row "Rose Cream" "Flora" "Beauty" "face cream moisturizer")
  = Some "Beauty"
  /\ "Beauty" <> ""
  /\ In "Rose Cream"
       (relevant_items Sample.creams
          (Category (Sample.row "Rose Cream" "Flora" "Beauty"
                       "face cream moisturizer"))).
Proof.
  assert (H1 : filter (fun it => (Name it =? "Rose Cream")%string) Sample.creams
               = [Sample.row "Rose Cream" "Flora" "Beauty"
                    "face cream moisturizer"]) by reflexivity.
  assert (H2 : Category (Sample.row "Rose Cream" "Flora" "Beauty"
                           "face cream moisturizer") = Some "Beauty")
    by reflexivity.
  assert (H3 : "Beauty" <> "") by discriminate.
  split; [exact H2 | split; [exact H3|]].
  exact (proj1 (own_name_is_relevant Sample.creams "Rose Cream" _ _ "Beauty"
                  H1 H2 H3)).
Defined.

(** * Frames with their index, and calls that raise *)

(** [re.compile]: whether [re] accepts a pattern.  A pattern without special
    characters is always accepted. *)
Class ReCompile := {
  re_compiles : string -> bool;
  re_compiles_plain : forall pat, re_plain pat = true -> re_compiles pat = true
}.

(** The compiler that accepts every pattern (what [regex=False] amounts
    to). *)
Definition compiles_all : ReCompile :=
  {| re_compiles := fun _ => true;
     re_compiles_plain := fun _ _ => eq_refl |}.

Module Indexed.

(** A frame as pandas holds it: every row with its index label.  The labels
    are the row numbers of the table the frame was cut from. *)
Definition DataFrame := list (nat * Item).

Definition labels (data : DataFrame) : list nat := map fst data.

Definition rows (data : DataFrame) : list Item := map snd data.

(** The default [RangeIndex]: every row is labelled with its position. *)
Definition range_index (rs : list Item) : DataFrame :=
  combine (seq 0 (List.length rs)) rs.

(** [data["Tags"].fillna("")] *)
Definition corpus (rs : list Item) : list string :=
  map (fun it => fillna (Tags it)) rs.

(** What interrupts a call: [re.error], the vectoriser's [ValueError], and
    numpy's [IndexError]. *)
Inductive PyError := ReError | ValueError | IndexError.

Inductive call (A : Type) :=
| Returns (a : A)
| Raises (e : PyError).
Arguments Returns {A} a.
Arguments Raises {A} e.

(** [matches.index[0]]: the label of the first row that satisfies [p]. *)
Fixpoint first_label (p : Item -> bool) (data : DataFrame) : option nat :=
  match data with
  | [] => None
  | (label, it) :: rest => if p it then Some label else first_label p rest
  end.

Section Calls.

Context {engine : StrContains} {compiler : ReCompile}.

(** [fits corpus]: [TfidfVectorizer.fit_transform] accepts the corpus, which
    it does when some document holds a term it keeps. *)
Variable fits : list string -> bool.

Variable cosine_tfidf : list string -> string -> string -> Q.

(** Line 41 of the source. *)
Definition item_index (data : DataFrame) (q : string) : option nat :=
  first_label (name_matches q) data.

(** The call, step by step as the source goes: validation, the mask (where
    [re] may reject the pattern), the early return on no match, the label of
    the first match, the vectoriser (which may reject the tags), the row of
    the similarity matrix at the number the label gives (which may be no
    row), the sort, the slice and [iloc]. *)
Definition content_based_recommendation
  (data : DataFrame) (item_name : PyArg) (top_n : nat) : call (list Product) :=
  if negb (truth item_name) || negb (isinstance_str item_name) then Returns []
  else
    match item_name with
    | PyOther _ => Returns []
    | PyString s =>
        let q := normalize s in
        if negb (re_compiles q) then Raises ReError
        else
          match item_index data q with
          | None => Returns []
          | Some label =>
              if negb (fits (corpus (rows data))) then Raises ValueError
              else if List.length data <=? label then Raises IndexError
              else Returns (iloc (rows data)
                              (top_similar_indices cosine_tfidf (rows data)
                                 label top_n))
          end
    end.

End Calls.

(** [df[df["MainCategory"] == selected_category]] of [filter_by_category]:
    the rows kept keep their labels. *)
Definition filter_by_category (selected_category : string) (df : DataFrame)
  : DataFrame :=
  if (selected_category =? "All")%string then df
  else filter (fun r => (App.MainCategory (snd r) =? selected_category)%string)
              df.

(** Cosine similarity of the row at position [j] to the row at position
    [anchor], from the tags of the two rows. *)
Definition similarity_to
  (cosine_tfidf : list string -> string -> string -> Q)
  (rs : list Item) (anchor j : nat) : Q :=
  match nth_error rs anchor, nth_error rs j with
  | Some a, Some b =>
      cosine_tfidf (corpus rs) (fillna (Tags a)) (fillna (Tags b))
  | _, _ => 0%Q
  end.

(** The order the specification asks for: by similarity to the anchor,
    descending, rows of equal similarity in catalog order. *)
Definition closer
  (cosine_tfidf : list string -> string -> string -> Q)
  (rs : list Item) (anchor a b : nat) : Prop :=
  (similarity_to cosine_tfidf rs anchor b
   < similarity_to cosine_tfidf rs anchor a)%Q
  \/ ((similarity_to cosine_tfidf rs anchor a
       == similarity_to cosine_tfidf rs anchor b)%Q /\ a < b).

(** A stand-in for the vectoriser's test: some document is not empty. *)
Definition some_text (corpus : list string) : bool :=
  existsb (fun t => negb (t =? "")%string) corpus.

(** A catalog of four rows; three of them are of the main category
    [Beauty]. *)
Definition shop : list Item :=
  [ Sample.row "Desk Lamp" "Glow" "home decor" "warm light";
    Sample.row "Lily Lotion" "Petal" "beauty care" "face cream";
    Sample.row "Alpha Serum" "Lab" "skin serum" "vitamin c serum";
    Sample.row "Beta Serum" "Lab" "skin serum" "vitamin c serum" ].

End Indexed.

(** ** The default index *)

Lemma combine_seq_snd {A : Type} (rs : list A) (k : nat) :
  map snd (combine (seq k (List.length rs)) rs) = rs.
Proof.
  revert k. induction rs as [|x rs IH]; intros k; simpl; [reflexivity|].
  now rewrite IH.
Qed.

Lemma rows_range_index (rs : list Item) :
  Indexed.rows (Indexed.range_index rs) = rs.
Proof. apply combine_seq_snd. Qed.

Lemma labels_range_index (rs : list Item) :
  Indexed.labels (Indexed.range_index rs) = seq 0 (List.length rs).
Proof. apply combine_seq_fst. Qed.

Lemma length_range_index (rs : list Item) :
  List.length (Indexed.range_index rs) = List.length rs.
Proof.
  unfold Indexed.range_index. rewrite length_combine, length_seq.
  apply Nat.min_id.
Qed.

Lemma rows_length (data : Indexed.DataFrame) :
  List.length (Indexed.rows data) = List.length data.
Proof. apply length_map. Qed.

Lemma first_label_combine (p : Item -> bool) (rs : list Item) (k : nat) :
  Indexed.first_label p (combine (seq k (List.length rs)) rs)
  = option_map (fun i => k + i) (first_index p rs).
Proof.
  revert k. induction rs as [|x rs IH]; intros k; simpl; [reflexivity|].
  destruct (p x); simpl; [now rewrite Nat.add_0_r|].
  rewrite IH. destruct (first_index p rs); simpl; [|reflexivity].
  f_equal. lia.
Qed.

Lemma first_label_range_index (p : Item -> bool) (rs : list Item) :
  Indexed.first_label p (Indexed.range_index rs) = first_index p rs.
Proof.
  unfold Indexed.range_index. rewrite first_label_combine.
  destruct (first_index p rs); reflexivity.
Qed.

(** ** The label of the first match *)

Lemma first_label_Some
  (p : Item -> bool) (data : Indexed.DataFrame) (label : nat) :
  Indexed.first_label p data = Some label ->
  exists pos it,
    nth_error data pos = Some (label, it) /\ p it = true
    /\ first_index p (Indexed.rows data) = Some pos
    /\ forall j r, j < pos -> nth_error data j = Some r -> p (snd r) = false.
Proof.
  revert label. induction data as [|[l x] data IH]; intros label; simpl;
    [discriminate|].
  destruct (p x) eqn:Hp.
  - intros E; inversion E; subst. exists 0, x. repeat split; auto.
    intros j r Hj. lia.
  - intros E. destruct (IH label E) as (pos & it & Hn & Hit & Hfi & Hb).
    exists (S pos), it. repeat split; auto.
    + unfold Indexed.rows in *. cbn [map snd first_index].
      rewrite ?Hp, Hfi. reflexivity.
    + intros [|j] r Hj Hr; simpl in Hr.
      * inversion Hr; subst. exact Hp.
      * apply (Hb j); [lia | exact Hr].
Qed.

Lemma first_label_None (p : Item -> bool) (data : Indexed.DataFrame) :
  Indexed.first_label p data = None
  <-> forall r, In r data -> p (snd r) = false.
Proof.
  induction data as [|[l x] data IH]; simpl.
  - split; [intros _ ? [] | reflexivity].
  - destruct (p x) eqn:Hp.
    + split; [discriminate|]. intros H.
      specialize (H (l, x) (or_introl eq_refl)). simpl in H. congruence.
    + rewrite IH. split.
      * intros H r [<-|Hr]; [exact Hp | now apply H].
      * intros H r Hr. apply H. now right.
Qed.

Lemma first_label_ext (p q : Item -> bool) (data : Indexed.DataFrame) :
  (forall it, p it = q it) ->
  Indexed.first_label p data = Indexed.first_label q data.
Proof.
  intros H. induction data as [|[l x] data IH]; simpl; [reflexivity|].
  now rewrite H, IH.
Qed.

(** ** Scores and the order of the specification *)

Lemma score_similarity_to
  (cosine_tfidf : list string -> string -> string -> Q)
  (rs : list Item) (i j : nat) :
  i < List.length rs -> j < List.length rs ->
  score cosine_tfidf rs i j = Indexed.similarity_to cosine_tfidf rs i j.
Proof.
  intros Hi Hj. unfold Indexed.similarity_to.
  destruct (nth_error rs i) as [a|] eqn:Ea;
    [|apply nth_error_None in Ea; lia].
  destruct (nth_error rs j) as [b|] eqn:Eb;
    [|apply nth_error_None in Eb; lia].
  apply (score_cosine cosine_tfidf rs i j a b Ea Eb).
Qed.

Lemma outranks_closer
  (cosine_tfidf : list string -> string -> string -> Q)
  (rs : list Item) (i a b : nat) :
  i < List.length rs -> a < List.length rs -> b < List.length rs ->
  outranks cosine_tfidf rs i a b -> Indexed.closer cosine_tfidf rs i a b.
Proof.
  intros Hi Ha Hb. unfold outranks, Indexed.closer.
  now rewrite !score_similarity_to by assumption.
Qed.

Lemma StronglySorted_weaken {A : Type} (R R' : A -> A -> Prop) (l : list A) :
  (forall a b, In a l -> In b l -> R a b -> R' a b) ->
  StronglySorted R l -> StronglySorted R' l.
Proof.
  intros H Hs. rewrite <- (map_id l).
  apply (StronglySorted_map R R' (fun x => x)); assumption.
Qed.

(** ** The call, case by case *)

Section IndexedFacts.

Context {engine : StrContains} {compiler : ReCompile}.
Variable fits : list string -> bool.
Variable cosine_tfidf : list string -> string -> string -> Q.

Lemma call_of_string (data : Indexed.DataFrame) (s : string) (top_n : nat) :
  s <> "" ->
  Indexed.content_based_recommendation fits cosine_tfidf data (PyString s) top_n
  = if negb (re_compiles (normalize s)) then Indexed.Raises Indexed.ReError
    else
      match Indexed.item_index data (normalize s) with
      | None => Indexed.Returns []
      | Some label =>
          if negb (fits (Indexed.corpus (Indexed.rows data)))
          then Indexed.Raises Indexed.ValueError
          else if List.length data <=? label
               then Indexed.Raises Indexed.IndexError
               else Indexed.Returns
                      (iloc (Indexed.rows data)
                         (top_similar_indices cosine_tfidf (Indexed.rows data)
                            label top_n))
      end.
Proof.
  intros Hs. unfold Indexed.content_based_recommendation; simpl.
  now rewrite eqb_empty_false.
Qed.

Lemma item_index_range_index (rs : list Item) (q : string) :
  Indexed.item_index (Indexed.range_index rs) q = item_index rs q.
Proof. apply first_label_range_index. Qed.

(** On the default index, with a pattern that compiles and tags the
    vectoriser accepts (or no match at all), the call returns what the
    computation on the rows gives. *)
Lemma on_default_index (rs : list Item) (s : string) (top_n : nat) :
  s <> "" ->
  re_compiles (normalize s) = true ->
  item_index rs (normalize s) = None \/ fits (Indexed.corpus rs) = true ->
  Indexed.content_based_recommendation fits cosine_tfidf
    (Indexed.range_index rs) (PyString s) top_n
  = Indexed.Returns
      (content_based_recommendation cosine_tfidf rs (PyString s) top_n).
Proof.
  intros Hs Hc Hf. rewrite call_of_string, recommendation_of_string by assumption.
  rewrite Hc, item_index_range_index, rows_range_index, length_range_index.
  simpl negb. cbv iota.
  destruct (item_index rs (normalize s)) as [i|] eqn:Hi; [|reflexivity].
  destruct Hf as [Hf|Hf]; [discriminate|]. rewrite Hf. simpl negb. cbv iota.
  apply first_index_lt in Hi.
  now rewrite (proj2 (Nat.leb_gt _ _) Hi).
Qed.

(** What a returning call has gone through. *)
Lemma call_returns (data : Indexed.DataFrame) (s : string) (top_n : nat)
  (r : list Product) :
  s <> "" ->
  Indexed.content_based_recommendation fits cosine_tfidf data (PyString s) top_n
  = Indexed.Returns r ->
  re_compiles (normalize s) = true
  /\ ((Indexed.item_index data (normalize s) = None /\ r = [])
      \/ exists label,
           Indexed.item_index data (normalize s) = Some label
           /\ fits (Indexed.corpus (Indexed.rows data)) = true
           /\ label < List.length data
           /\ r = iloc (Indexed.rows data)
                    (top_similar_indices cosine_tfidf (Indexed.rows data)
                       label top_n)).
Proof.
  intros Hs. rewrite call_of_string by assumption.
  destruct (re_compiles (normalize s)); simpl negb; cbv iota; [|discriminate].
  destruct (Indexed.item_index data (normalize s)) as [label|].
  - destruct (fits _); simpl negb; cbv iota; [|discriminate].
    destruct (List.length data <=? label) eqn:Hl; [discriminate|].
    intros E; inversion E. split; [reflexivity|]. right. exists label.
    apply Nat.leb_gt in Hl. auto.
  - intros E; inversion E. split; [reflexivity|]. left; auto.
Qed.

End IndexedFacts.

(** ** The frame [app.py] passes on *)

(** The shop under the category [Beauty]: rows 1 to 3, with their labels. *)
Definition beauty_shelf : Indexed.DataFrame :=
  Indexed.filter_by_category "Beauty" (Indexed.range_index Indexed.shop).

Definition shelf_tags : list string :=
  Indexed.corpus (Indexed.rows beauty_shelf).

Lemma beauty_shelf_rows :
  beauty_shelf
  = [ (1, Sample.row "Lily Lotion" "Petal" "beauty care" "face cream");
      (2, Sample.row "Alpha Serum" "Lab" "skin serum" "vitamin c serum");
      (3, Sample.row "Beta Serum" "Lab" "skin serum" "vitamin c serum") ].
Proof. reflexivity. Qed.

Section IndexedClaims.

Context {engine : StrContains} {compiler : ReCompile}.
Variable fits : list string -> bool.
Variable cosine_tfidf : list string -> string -> string -> Q.

Lemma item_index_plain_label (data : Indexed.DataFrame) (q : string) :
  re_plain q = true ->
  Indexed.item_index data q
  = Indexed.first_label
      (fun it => PyStr.str_in q (PyStr.lower (Name it))) data.
Proof.
  intros Hq. apply first_label_ext. intros it.
  unfold name_matches. now apply str_contains_plain.
Qed.

(** C7, where the code departs from it: [app.py] passes the frame filtered
    by category, whose labels are 1, 2, 3.  The query [lily] matches the
    first row only, so the anchor is the row at position 0; its label 1 is
    then read as a row number, and the scores sorted are those of
    [Alpha Serum].  With a vectoriser that accepts the tags and a cosine
    for which a row is closer to itself than to a row of other tags, the
    call returns [Beta Serum] and then the anchor [Lily Lotion] itself: a
    list that is not in descending order of similarity to the anchor. *)
Theorem label_read_as_row_number :
  fits shelf_tags = true ->
  (cosine_tfidf shelf_tags "vitamin c serum" "face cream"
   < cosine_tfidf shelf_tags "vitamin c serum" "vitamin c serum")%Q ->
  (cosine_tfidf shelf_tags "face cream" "vitamin c serum"
   < cosine_tfidf shelf_tags "face cream" "face cream")%Q ->
  Indexed.labels beauty_shelf = [1; 2; 3]
  /\ item_index (Indexed.rows beauty_shelf) (normalize "lily") = Some 0
  /\ Indexed.item_index beauty_shelf (normalize "lily") = Some 1
  /\ top_similar_indices cosine_tfidf (Indexed.rows beauty_shelf) 1 10 = [2; 0]
  /\ Indexed.content_based_recommendation fits cosine_tfidf beauty_shelf
       (PyString "lily") 10
     = Indexed.Returns
         [ product_of (Sample.row "Beta Serum" "Lab" "skin serum"
                         "vitamin c serum");
           product_of (Sample.row "Lily Lotion" "Petal" "beauty care"
                         "face cream") ]
  /\ ~ StronglySorted
         (Indexed.closer cosine_tfidf (Indexed.rows beauty_shelf) 0) [2; 0].
Proof.
  intros Hfit Hself Hanchor.
  assert (Hpos : item_index (Indexed.rows beauty_shelf) (normalize "lily")
                 = Some 0)
    by (rewrite item_index_plain by reflexivity; reflexivity).
  assert (Hlab : Indexed.item_index beauty_shelf (normalize "lily") = Some 1)
    by (rewrite item_index_plain_label by reflexivity; reflexivity).
  assert (Hidx : top_similar_indices cosine_tfidf (Indexed.rows beauty_shelf)
                   1 10 = [2; 0]).
  { unfold top_similar_indices, similarity_row.
    change (map (fun it => fillna (Tags it)) (Indexed.rows beauty_shelf))
      with shelf_tags.
    change (nth_error shelf_tags 1) with (Some "vitamin c serum").
    cbv iota.
    change (map (cosine_tfidf shelf_tags "vitamin c serum") shelf_tags)
      with [ cosine_tfidf shelf_tags "vitamin c serum" "face cream";
             cosine_tfidf shelf_tags "vitamin c serum" "vitamin c serum";
             cosine_tfidf shelf_tags "vitamin c serum" "vitamin c serum" ].
    unfold enumerate, sorted_desc. simpl.
    repeat (first [ rewrite Qltb_irrefl
                  | rewrite (proj2 (Qltb_true _ _) Hself) ]; simpl).
    reflexivity. }
  split; [reflexivity|]. split; [exact Hpos|]. split; [exact Hlab|].
  split; [exact Hidx|]. split.
  - rewrite call_of_string by discriminate.
    rewrite (re_compiles_plain (normalize "lily") eq_refl), Hlab.
    fold shelf_tags. rewrite Hfit, Hidx. reflexivity.
  - intros Hs. apply StronglySorted_inv in Hs. destruct Hs as [_ Hall].
    apply Forall_inv in Hall. destruct Hall as [Hlt|[_ Hlt]]; [|lia].
    change (Indexed.similarity_to cosine_tfidf (Indexed.rows beauty_shelf) 0 0)
      with (cosine_tfidf shelf_tags "face cream" "face cream") in Hlt.
    change (Indexed.similarity_to cosine_tfidf (Indexed.rows beauty_shelf) 0 2)
      with (cosine_tfidf shelf_tags "face cream" "vitamin c serum") in Hlt.
    exact (Qlt_irrefl _ (Qlt_trans _ _ _ Hlt Hanchor)).
Qed.

End IndexedClaims.

Section IndexedProperties.

Context {engine : StrContains} {compiler : ReCompile}.
Variable fits : list string -> bool.
Variable cosine_tfidf : list string -> string -> string -> Q.

(** C9, amended: on a non-empty catalog with the default index whose tags
    the vectoriser accepts, a non-empty query made of whitespace only passes
    the validation, is normalised to the empty string, matches the name of
    every row and anchors at row 0; the call returns
    [min(top_n, len(data) - 1)] rows, a non-empty frame whenever the catalog
    has at least two rows and [top_n] is at least 1. *)
Theorem blank_query_anchors_first_row
  (rs : list Item) (s : string) (top_n : nat) :
  s <> "" ->
  PyStr.all_chars PyStr.isspace s = true ->
  rs <> [] ->
  fits (Indexed.corpus rs) = true ->
  negb (truth (PyString s)) || negb (isinstance_str (PyString s)) = false
  /\ normalize s = ""
  /\ (forall it, In it rs -> name_matches (normalize s) it = true)
  /\ Indexed.item_index (Indexed.range_index rs) (normalize s) = Some 0
  /\ exists r,
       Indexed.content_based_recommendation fits cosine_tfidf
         (Indexed.range_index rs) (PyString s) top_n
       = Indexed.Returns r
       /\ r = iloc rs (top_similar_indices cosine_tfidf rs 0 top_n)
       /\ List.length r = Nat.min top_n (List.length rs - 1)
       /\ (2 <= List.length rs -> 1 <= top_n -> r <> []).
Proof.
  intros Hs Hws Hrs Hfit.
  pose proof (normalize_whitespace s Hws) as Hn.
  assert (Hall : forall it, name_matches (normalize s) it = true).
  { intros it. unfold name_matches. rewrite Hn.
    rewrite str_contains_plain by reflexivity. apply str_in_empty. }
  assert (Hi : item_index rs (normalize s) = Some 0).
  { unfold item_index. destruct rs as [|it rs']; [contradiction|].
    simpl. now rewrite Hall. }
  assert (Hc : re_compiles (normalize s) = true)
    by (rewrite Hn; now apply re_compiles_plain).
  split; [simpl; now rewrite eqb_empty_false|].
  split; [exact Hn|]. split; [auto|].
  split; [now rewrite item_index_range_index|].
  exists (content_based_recommendation cosine_tfidf rs (PyString s) top_n).
  split; [apply on_default_index; auto|].
  pose proof (recommendation_length cosine_tfidf rs s top_n 0 Hs Hi) as Hlen.
  split; [now rewrite recommendation_of_string, Hi|].
  split; [exact Hlen|].
  intros H2 H1 E. rewrite E in Hlen. simpl in Hlen. lia.
Qed.

(** X1: whenever the call returns for a non-empty query, the frame has
    [min(top_n, len(data) - 1)] rows if a name matched and none otherwise;
    so it is empty exactly when no name matched, [top_n] is 0, or the frame
    has a single row. *)
Theorem returned_row_count
  (data : Indexed.DataFrame) (s : string) (top_n : nat) (r : list Product) :
  s <> "" ->
  Indexed.content_based_recommendation fits cosine_tfidf data (PyString s) top_n
  = Indexed.Returns r ->
  List.length r
  = match Indexed.item_index data (normalize s) with
    | Some _ => Nat.min top_n (List.length data - 1)
    | None => 0
    end
  /\ (r = [] <-> Indexed.item_index data (normalize s) = None
                 \/ top_n = 0 \/ List.length data <= 1).
Proof.
  intros Hs Hcall.
  destruct (call_returns fits cosine_tfidf data s top_n r Hs Hcall)
    as [_ [[Hnone ->]|(label & Hlab & _ & Hlt & ->)]].
  - rewrite Hnone. split; [reflexivity|]. split; auto.
  - rewrite Hlab. rewrite <- rows_length in Hlt.
    assert (Hlen :
      List.length (iloc (Indexed.rows data)
                     (top_similar_indices cosine_tfidf (Indexed.rows data)
                        label top_n))
      = Nat.min top_n (List.length data - 1)).
    { rewrite iloc_length by now apply top_similar_indices_in_range.
      rewrite top_similar_indices_ranking, slice_1_length.
      rewrite ranking_length by assumption. now rewrite rows_length. }
    split; [exact Hlen|].
    rewrite <- length_zero_iff_nil, Hlen. split.
    + intros H. right. lia.
    + intros [H|H]; [discriminate | lia].
Qed.

(** X19: for a non-empty query whose normal form has no special character,
    the label taken on line 41 is that of the first row, in the order of the
    frame, whose lower-cased name contains the normal form; on the default
    index it is the position of that row; and the call returns the empty
    frame when no name contains it. *)
Theorem plain_query_takes_first_match
  (data : Indexed.DataFrame) (rs : list Item) (s : string) (top_n : nat) :
  s <> "" ->
  re_plain (normalize s) = true ->
  (forall label,
     Indexed.item_index data (normalize s) = Some label ->
     exists pos it,
       nth_error data pos = Some (label, it)
       /\ PyStr.str_in (normalize s) (PyStr.lower (Name it)) = true
       /\ forall j r, j < pos -> nth_error data j = Some r ->
            PyStr.str_in (normalize s) (PyStr.lower (Name (snd r))) = false)
  /\ Indexed.item_index (Indexed.range_index rs) (normalize s)
     = first_index (fun it => PyStr.str_in (normalize s) (PyStr.lower (Name it)))
         rs
  /\ ((forall r, In r data ->
         PyStr.str_in (normalize s) (PyStr.lower (Name (snd r))) = false) ->
      Indexed.content_based_recommendation fits cosine_tfidf data
        (PyString s) top_n = Indexed.Returns []).
Proof.
  intros Hs Hplain. split; [|split].
  - intros label Hl. rewrite item_index_plain_label in Hl by assumption.
    apply first_label_Some in Hl.
    destruct Hl as (pos & it & Hn & Hit & _ & Hb). exists pos, it. auto.
  - rewrite item_index_range_index. now apply item_index_plain.
  - intros Hnone. rewrite call_of_string by assumption.
    rewrite (re_compiles_plain _ Hplain). simpl negb. cbv iota.
    rewrite item_index_plain_label by assumption.
    apply (first_label_None
             (fun it => PyStr.str_in (normalize s) (PyStr.lower (Name it))))
      in Hnone.
    now rewrite Hnone.
Qed.

(** X20: on the default index, whenever the call returns for a non-empty
    query that matches a name, the frame has at most [top_n] rows, which are
    the display records of rows at pairwise distinct positions of the
    catalog, in descending order of cosine similarity to the first matching
    row, rows of equal similarity in catalog order. *)
Theorem ranked_by_similarity_to_anchor
  (rs : list Item) (s : string) (top_n i : nat) (r : list Product) :
  s <> "" ->
  Indexed.content_based_recommendation fits cosine_tfidf
    (Indexed.range_index rs) (PyString s) top_n
  = Indexed.Returns r ->
  item_index rs (normalize s) = Some i ->
  List.length r <= top_n
  /\ exists indices,
       Forall2 (fun j p => exists it,
                  nth_error rs j = Some it /\ p = product_of it)
               indices r
       /\ NoDup indices
       /\ StronglySorted (Indexed.closer cosine_tfidf rs i) indices.
Proof.
  intros Hs Hcall Hi.
  pose proof (first_index_lt _ _ _ Hi) as Hlt.
  destruct (call_returns fits cosine_tfidf _ s top_n r Hs Hcall)
    as [_ [[Hnone _]|(label & Hlab & _ & _ & Hr)]];
    rewrite item_index_range_index, Hi in *; [discriminate|].
  inversion Hlab; subst label. rewrite rows_range_index in Hr. subst r.
  pose proof (top_similar_indices_in_range cosine_tfidf rs i top_n Hlt) as Hin.
  split.
  - rewrite iloc_length by assumption.
    rewrite top_similar_indices_ranking, slice_1_length. apply Nat.le_min_l.
  - exists (top_similar_indices cosine_tfidf rs i top_n).
    split; [now apply iloc_rows|]. split.
    + rewrite top_similar_indices_ranking.
      apply slice_1_NoDup, ranking_NoDup, Hlt.
    + apply (StronglySorted_weaken (outranks cosine_tfidf rs i)).
      * rewrite Forall_forall in Hin. intros a b Ha Hb.
        apply outranks_closer; auto.
      * rewrite top_similar_indices_ranking.
        apply slice_1_sorted, ranking_sorted.
Qed.


End IndexedProperties.

(** ** The calls at sample inputs *)

(** The filtered shelf, under stand-ins for the libraries that agree with
    them on it: every tag list holds a term, equal tags have cosine 1 and
    tags without a common word cosine 0. *)
Lemma lily_on_beauty_shelf :
  Indexed.some_text shelf_tags = true
  /\ (Sample.same_tags shelf_tags "vitamin c serum" "face cream"
      < Sample.same_tags shelf_tags "vitamin c serum" "vitamin c serum")%Q
  /\ (Sample.same_tags shelf_tags "face cream" "vitamin c serum"
      < Sample.same_tags shelf_tags "face cream" "face cream")%Q
  /\ Indexed.content_based_recommendation
       (engine := literal_engine) (compiler := compiles_all)
       Indexed.some_text Sample.same_tags beauty_shelf (PyString "lily") 10
     = Indexed.Returns
         [ product_of (Sample.row "Beta Serum" "Lab" "skin serum"
                         "vitamin c serum");
           product_of (Sample.row "Lily Lotion" "Petal" "beauty care"
                         "face cream") ].
Proof.
  assert (H1 : Indexed.some_text shelf_tags = true) by reflexivity.
  assert (H2 : (Sample.same_tags shelf_tags "vitamin c serum" "face cream"
                < Sample.same_tags shelf_tags "vitamin c serum"
                    "vitamin c serum")%Q) by reflexivity.
  assert (H3 : (Sample.same_tags shelf_tags "face cream" "vitamin c serum"
                < Sample.same_tags shelf_tags "face cream" "face cream")%Q)
    by reflexivity.
  split; [exact H1 | split; [exact H2 | split; [exact H3|]]].
  exact (proj1 (proj2 (proj2 (proj2 (proj2
           (label_read_as_row_number
              (engine := literal_engine) (compiler := compiles_all)
              Indexed.some_text Sample.same_tags H1 H2 H3)))))).
Defined.

(** C9 as it is worded fails where no row is asked for: on two creams a
    query of two spaces returns the empty frame for [top_n = 0]. *)
Lemma blank_query_with_top_n_zero :
  2 <= List.length Sample.creams
  /\ Indexed.content_based_recommendation
       (engine := literal_engine) (compiler := compiles_all)
       Indexed.some_text Sample.same_tags
       (Indexed.range_index Sample.creams) (PyString "  ") 0
     = Indexed.Returns [].
Proof. split; [simpl; lia | reflexivity]. Qed.

(** Two spaces as the query, ten rows asked for. *)
Lemma blank_query_on_creams :
  "  " <> ""
  /\ PyStr.all_chars PyStr.isspace "  " = true
  /\ Sample.creams <> []
  /\ Indexed.some_text (Indexed.corpus Sample.creams) = true
  /\ exists r,
       Indexed.content_based_recommendation
         (engine := literal_engine) (compiler := compiles_all)
         Indexed.some_text Sample.same_tags
         (Indexed.range_index Sample.creams) (PyString "  ") 10
       = Indexed.Returns r
       /\ r <> [].
Proof.
  assert (H1 : "  " <> "") by discriminate.
  assert (H2 : PyStr.all_chars PyStr.isspace "  " = true) by reflexivity.
  assert (H3 : Sample.creams <> []) by discriminate.
  assert (H4 : Indexed.some_text (Indexed.corpus Sample.creams) = true)
    by reflexivity.
  split; [exact H1 | split; [exact H2 | split; [exact H3 | split; [exact H4|]]]].
  destruct (blank_query_anchors_first_row
              (engine := literal_engine) (compiler := compiles_all)
              Indexed.some_text Sample.same_tags Sample.creams "  " 10
              H1 H2 H3 H4)
    as (_ & _ & _ & _ & r & Hr & _ & _ & Hne).
  exists r. split; [exact Hr|]. apply Hne; simpl; lia.
Defined.

(** [alpha] on the whole shop: three rows come back. *)
Lemma alpha_count_on_shop :
  "alpha" <> ""
  /\ exists r,
       Indexed.content_based_recommendation
         (engine := literal_engine) (compiler := compiles_all)
         Indexed.some_text Sample.same_tags
         (Indexed.range_index Indexed.shop) (PyString "alpha") 10
       = Indexed.Returns r
       /\ List.length r = 3.
Proof.
  assert (H1 : "alpha" <> "") by discriminate.
  split; [exact H1|]. eexists. split; [vm_compute; reflexivity|].
  apply (returned_row_count
           (engine := literal_engine) (compiler := compiles_all)
           Indexed.some_text Sample.same_tags
           (Indexed.range_index Indexed.shop) "alpha" 10 _ H1).
  vm_compute; reflexivity.
Defined.

(** [serum] on the filtered shelf: the label taken is 2, that of the first
    serum, which stands at position 1. *)
Lemma serum_label_on_beauty_shelf :
  "serum" <> ""
  /\ re_plain (normalize "serum") = true
  /\ Indexed.item_index (engine := literal_engine) beauty_shelf
       (normalize "serum") = Some 2
  /\ exists pos it,
       nth_error beauty_shelf pos = Some (2, it)
       /\ PyStr.str_in (normalize "serum") (PyStr.lower (Name it)) = true.
Proof.
  assert (H1 : "serum" <> "") by discriminate.
  assert (H2 : re_plain (normalize "serum") = true) by reflexivity.
  assert (H3 : Indexed.item_index (engine := literal_engine) beauty_shelf
                 (normalize "serum") = Some 2) by reflexivity.
  split; [exact H1 | split; [exact H2 | split; [exact H3|]]].
  destruct (proj1 (plain_query_takes_first_match
                     (engine := literal_engine) (compiler := compiles_all)
                     Indexed.some_text Sample.same_tags beauty_shelf
                     Indexed.shop "serum" 10 H1 H2) 2 H3)
    as (pos & it & Hn & Hin & _).
  exists pos, it. split; [exact Hn | exact Hin].
Defined.

(** [alpha] on the whole shop: the three rows returned are in the order of
    their similarity to the third row. *)
Lemma alpha_ranked_on_shop :
  "alpha" <> ""
  /\ item_index (engine := literal_engine) Indexed.shop (normalize "alpha")
     = Some 2
  /\ exists r indices,
       Indexed.content_based_recommendation
         (engine := literal_engine) (compiler := compiles_all)
         Indexed.some_text Sample.same_tags
         (Indexed.range_index Indexed.shop) (PyString "alpha") 10
       = Indexed.Returns r
       /\ List.length r = 3
       /\ Forall2 (fun j p => exists it,
                     nth_error Indexed.shop j = Some it /\ p = product_of it)
                  indices r
       /\ StronglySorted (Indexed.closer Sample.same_tags Indexed.shop 2)
            indices.
Proof.
  assert (H1 : "alpha" <> "") by discriminate.
  assert (H2 : item_index (engine := literal_engine) Indexed.shop
                 (normalize "alpha") = Some 2) by reflexivity.
  split; [exact H1 | split; [exact H2|]].
  eexists. 
  assert (Hcall :
    Indexed.content_based_recommendation
      (engine := literal_engine) (compiler := compiles_all)
      Indexed.some_text Sample.same_tags
      (Indexed.range_index Indexed.shop) (PyString "alpha") 10
    = Indexed.Returns
        (content_based_recommendation (engine := literal_engine)
           Sample.same_tags Indexed.shop (PyString "alpha") 10))
    by reflexivity.
  destruct (ranked_by_similarity_to_anchor
              (engine := literal_engine) (compiler := compiles_all)
              Indexed.some_text Sample.same_tags Indexed.shop "alpha" 10 2 _
              H1 Hcall H2)
    as (_ & indices & Hrows & _ & Hsorted).
  exists indices. split; [exact Hcall|].
  split; [reflexivity | split; [exact Hrows | exact Hsorted]].
Defined.

